(** * rreplay.py: the replay coordinator of CrashSimulator

    A shallow embedding of [src/rreplay.py] (Python 2).  The coordinator
    reads a test configuration, launches [rr replay], listens on a named
    pipe for the events rr reports, hands each of them to the injector or
    records it as skipped, waits for the injectors and removes the files it
    shares with rr.

    Python values are modelled by the types the code gives them: [str] is
    [string], a dict used as a map with arbitrary keys is a [gmap], the
    subject dict (whose keys are fixed by the code) is a record with
    optional fields.  Statements that touch the operating system run in the
    monad [M] over a [World]: the file system, the process-wide pipe handle,
    the console and the ordered list of observable effects.  Loops that may
    spin take fuel and yield [Diverge] when it is used up. *)

From Stdlib Require Import ZArith Ascii String List Permutation Sorted Lia.
From stdpp Require Import base option list gmap strings sorting.

Set Warnings "-register-all".

Open Scope string_scope.
Open Scope Z_scope.

(** ** Python strings *)

Module Py.

(** The line terminator, ['\n']. *)
Definition LF : ascii := "010"%char.
Definition line (s : string) : string := s +:+ String LF "".

(** [string.whitespace] of the C locale, what [str.strip()] removes. *)
Definition is_space (c : ascii) : bool :=
  let n := nat_of_ascii c in
  ((n =? 32) || ((9 <=? n) && (n <=? 13)))%nat.

Fixpoint lstrip (s : string) : string :=
  match s with
  | String c s' => if is_space c then lstrip s' else s
  | EmptyString => EmptyString
  end.

Fixpoint rstrip (s : string) : string :=
  match s with
  | String c s' =>
      match rstrip s' with
      | EmptyString => if is_space c then EmptyString else String c EmptyString
      | r => String c r
      end
  | EmptyString => EmptyString
  end.

(** [s.strip()] *)
Definition strip (s : string) : string := rstrip (lstrip s).

(** [s[:-1]] *)
Fixpoint drop_last (s : string) : string :=
  match s with
  | String c EmptyString => EmptyString
  | String c s' => String c (drop_last s')
  | EmptyString => EmptyString
  end.

(** [s[-1]], when [s] is not empty *)
Fixpoint last_char (s : string) : option ascii :=
  match s with
  | String c EmptyString => Some c
  | String _ s' => last_char s'
  | EmptyString => None
  end.

(** [s.split(sep)] for a one-character separator: every occurrence cuts,
    so neighbouring separators give empty fields and the result is never
    the empty list. *)
Fixpoint split (sep : ascii) (s : string) : list string :=
  match s with
  | EmptyString => [EmptyString]
  | String c s' =>
      if Ascii.eqb c sep then EmptyString :: split sep s'
      else match split sep s' with
           | h :: t => String c h :: t
           | [] => [String c EmptyString]
           end
  end.

Definition digit (c : ascii) : option Z :=
  let n := nat_of_ascii c in
  if ((48 <=? n) && (n <=? 57))%nat then Some (Z.of_nat n - 48) else None.

Fixpoint digits (acc : Z) (s : string) : option Z :=
  match s with
  | EmptyString => Some acc
  | String c s' =>
      match digit c with
      | Some d => digits (10 * acc + d) s'
      | None => None
      end
  end.

(** [int(s)] on a [str], base 10: surrounding whitespace is ignored, one
    sign is allowed, at least one digit is required.  [None] is
    [ValueError]. *)
Definition int (s : string) : option Z :=
  match strip s with
  | EmptyString => None
  | String "-" (String c r) => Z.opp <$> digits 0 (String c r)
  | String "+" (String c r) => digits 0 (String c r)
  | t => digits 0 t
  end.

(** [s.decode('utf-8')] succeeds: the check that the Python 2.7 decoder
    makes.  Lead bytes C2-DF take one continuation byte, E0-EF two and
    F0-F4 three; overlong forms and code points above U+10FFFF are
    refused, encoded surrogates are let through. *)
Definition continuation (c : ascii) : bool :=
  let n := nat_of_ascii c in ((128 <=? n) && (n <=? 191))%nat.

Fixpoint is_utf8 (s : string) : bool :=
  match s with
  | EmptyString => true
  | String c r =>
      let n := nat_of_ascii c in
      if (n <? 128)%nat then is_utf8 r
      else if ((194 <=? n) && (n <=? 223))%nat then
        match r with
        | String c1 r1 => continuation c1 && is_utf8 r1
        | _ => false
        end
      else if ((224 <=? n) && (n <=? 239))%nat then
        match r with
        | String c1 (String c2 r2) =>
            continuation c1 && continuation c2
            && (negb (n =? 224)%nat || (160 <=? nat_of_ascii c1)%nat)
            && is_utf8 r2
        | _ => false
        end
      else if ((240 <=? n) && (n <=? 244))%nat then
        match r with
        | String c1 (String c2 (String c3 r3)) =>
            continuation c1 && continuation c2 && continuation c3
            && (negb (n =? 240)%nat || (144 <=? nat_of_ascii c1)%nat)
            && (negb (n =? 244)%nat || (nat_of_ascii c1 <=? 143)%nat)
            && is_utf8 r3
        | _ => false
        end
      else false
  end.

(** A line that the configuration parser passes over: blank, a comment
    that starts with [#] or [;], or a [rem] line. *)
Definition rem_line (l : string) : bool :=
  match l with
  | String c0 (String c1 (String c2 r)) =>
      (Ascii.eqb c0 "r" || Ascii.eqb c0 "R")
      && (Ascii.eqb c1 "e" || Ascii.eqb c1 "E")
      && (Ascii.eqb c2 "m" || Ascii.eqb c2 "M")
      && match r with
         | EmptyString => true
         | String c3 _ => is_space c3
         end
  | _ => false
  end.

Definition passed_over (l : string) : bool :=
  match strip l with
  | EmptyString => true
  | _ =>
      match l with
      | String c _ => Ascii.eqb c "#" || Ascii.eqb c ";" || rem_line l
      | EmptyString => true
      end
  end.

(** A text in which the parser finds nothing at all. *)
Definition no_sections (s : string) : bool :=
  forallb passed_over (split LF s).

End Py.

Example split_inject :
  Py.split " " (Py.line "INJECT: EVENT: 3 PID: 100 REC_PID: 200")
  = ["INJECT:"; "EVENT:"; "3"; "PID:"; "100"; "REC_PID:"; Py.line "200"].
Proof. reflexivity. Qed.

Example verb_inject : Py.drop_last (Py.strip "INJECT:") = "INJECT".
Proof. reflexivity. Qed.

Example int_examples :
  Py.int "16154" = Some 16154 /\ Py.int " -7 " = Some (-7) /\
  Py.int "" = None /\ Py.int "3a" = None /\ Py.int "+" = None.
Proof. repeat split; reflexivity. Qed.

(** ** Data model *)

(** JSON documents, as [json.load] returns them and [json.dump] takes
    them; an object is a dict keyed by strings. *)
Inductive json : Type :=
| JNull
| JBool (b : bool)
| JNum (z : Z)
| JStr (s : string)
| JArr (l : list json)
| JObj (m : gmap string json).

(** A [subprocess.Popen] object: the child's number in spawn order and
    the command it runs. *)
Record Handle := { child : nat; argv : list string }.

(** One configured injection opportunity: the dict [s] that
    [get_configuration] builds.  The keys that the code adds only in some
    runs are optional. *)
Record Subject := {
  event : string;
  rec_pid : string;
  trace_file : string;
  trace_start : string;
  trace_end : string;
  injected_state_file : string;
  other_procs : list string;
  mmap_backing_files : option string;
  checker : option string;
  mutator : option string;
  pid : option string;
  handle : option Handle
}.

(** [s['pid'] = p] *)
Definition set_pid (p : string) (s : Subject) : Subject :=
  {| event := event s; rec_pid := rec_pid s; trace_file := trace_file s;
     trace_start := trace_start s; trace_end := trace_end s;
     injected_state_file := injected_state_file s;
     other_procs := other_procs s;
     mmap_backing_files := mmap_backing_files s; checker := checker s;
     mutator := mutator s; pid := Some p; handle := handle s |}.

(** [s['handle'] = h] *)
Definition set_handle (h : Handle) (s : Subject) : Subject :=
  {| event := event s; rec_pid := rec_pid s; trace_file := trace_file s;
     trace_start := trace_start s; trace_end := trace_end s;
     injected_state_file := injected_state_file s;
     other_procs := other_procs s;
     mmap_backing_files := mmap_backing_files s; checker := checker s;
     mutator := mutator s; pid := pid s; handle := Some h |}.

(** [s['other_procs'].append(p)] *)
Definition append_other_proc (p : string) (s : Subject) : Subject :=
  {| event := event s; rec_pid := rec_pid s; trace_file := trace_file s;
     trace_start := trace_start s; trace_end := trace_end s;
     injected_state_file := injected_state_file s;
     other_procs := other_procs s ++ [p];
     mmap_backing_files := mmap_backing_files s; checker := checker s;
     mutator := mutator s; pid := pid s; handle := handle s |}.

(** The exceptions that the program meets. *)
Inductive exn :=
| KeyboardInterrupt
| SystemExit (code : Z)
| IOError
| OSError
| IndexError
| TypeError
| ValueError
| UnicodeDecodeError
| AttributeError
| NoOptionError
| ParsingError.

(** [except Exception] catches everything but the two exceptions that
    derive from [BaseException] directly. *)
Definition is_Exception (e : exn) : bool :=
  match e with
  | KeyboardInterrupt | SystemExit _ => false
  | _ => true
  end.

(** A key that a subject has only when it was given a value. *)
Definition optional_key (k : string) (v : option string)
    (m : gmap string json) : gmap string json :=
  match v with Some x => <[k := JStr x]> m | None => m end.

(** The [str] values of a subject, which [json.dump] has to decode. *)
Definition subject_strings (s : Subject) : list string :=
  [event s; rec_pid s; trace_file s; trace_start s; trace_end s;
   injected_state_file s]
  ++ other_procs s
  ++ option_list (mmap_backing_files s) ++ option_list (checker s)
  ++ option_list (mutator s) ++ option_list (pid s).

(** The JSON value of a subject, for [json.dump]: every key that is
    present, with its string or list value.  [json.dump] raises
    [TypeError] on the [Popen] object of a subject that carries a
    [handle], and [UnicodeDecodeError] on a [str] that is not UTF-8.
    (With both at fault the dict's order decides which of the two is
    raised; the model takes the first.) *)
Definition subject_json (s : Subject) : exn + json :=
  match handle s with
  | Some _ => inl TypeError
  | None =>
      if forallb Py.is_utf8 (subject_strings s) then
        inr (JObj
          (optional_key "pid" (pid s)
          (optional_key "mutator" (mutator s)
          (optional_key "checker" (checker s)
          (optional_key "mmap_backing_files" (mmap_backing_files s)
          (<["other_procs" := JArr (JStr <$> other_procs s)]>
          (<["injected_state_file" := JStr (injected_state_file s)]>
          (<["trace_end" := JStr (trace_end s)]>
          (<["trace_start" := JStr (trace_start s)]>
          (<["trace_file" := JStr (trace_file s)]>
          (<["rec_pid" := JStr (rec_pid s)]>
          (<["event" := JStr (event s)]> ∅))))))))))))
      else inl UnicodeDecodeError
  end.

(** What the libraries that read a regular file make of it.  The bytes of
    a structured file are not modelled, only what its parser returns:
    [Ini] is a file that [SafeConfigParser] reads as the given sections,
    in file order, each with its options; [Document] is a file with the
    one line that [json.dump] writes for the given value, and which
    [json.load] decodes to it; [Torn] is a document whose
    write was cut short by an exception.  [Text] is a file of plain
    bytes, one that holds neither a section header nor a JSON text: to
    the configuration parser it is empty or an error, to [json.load] an
    error. *)
Inductive Content :=
| Text (s : string)
| Document (j : json)
| Ini (sections : list (string * gmap string string))
| Torn.

Inductive Node :=
| Dir
| Fifo (pending : string)
| File (c : Content).

(** Console output, one constructor per [print] of the program. *)
Inductive Msg :=
| MsgNoOpportunities
| MsgTestMissing (testname : string)
| MsgWaiting
| MsgNoHandle (s : Subject)
| MsgInjectorFailed (ev rpid : string)
| MsgDump (c : Content).

(** What the program does to other processes and to the state files, in
    program order. *)
Inductive Effect :=
| Spawned (cmd : list string)
| Waited (h : Handle)
| Killed (target : Z) (signal : Z)
| Wrote (path : string) (c : Content).

(** The orchestrator's states, as the unit of interrupt delivery. *)
Inductive State :=
| PRECLEANUP | LOAD_CONFIG | LAUNCH_REPLAY | DISPATCH | SUPERVISE
| POSTCLEANUP.

Global Instance State_eq_dec : EqDecision State.
Proof. solve_decision. Defined.

(** The world the coordinator runs in.

    - [fs]: the file system, path to node;
    - [rrdump_pipe]: the module global of that name, [None] until the pipe
      is opened, then the bytes its writer will still deliver before it
      closes its end;
    - [console], [effects]: output, in order;
    - [programs]: the commands that can be executed, each with the files
      it has created by the time the coordinator next looks (rr makes the
      pipe and fills the log);
    - [starting]: for a pid that the replay reports, how many more
      liveness checks fail before it is seen alive; a pid that is not in
      the map is never seen alive;
    - [gone]: the pids that have exited, for which [os.kill] fails;
    - [statuses]: the exit status of the n-th child, 0 when not listed;
    - [sigint]: the state on entry to which the user's interrupt arrives,
      if any. *)
Record World := {
  fs : gmap string Node;
  rrdump_pipe : option string;
  console : list Msg;
  effects : list Effect;
  programs : gmap string (list (string * Node));
  starting : gmap string nat;
  gone : gset Z;
  statuses : list Z;
  sigint : option State
}.

Definition with_fs (f : gmap string Node) (w : World) : World :=
  {| fs := f; rrdump_pipe := rrdump_pipe w; console := console w;
     effects := effects w; programs := programs w; starting := starting w;
     gone := gone w; statuses := statuses w; sigint := sigint w |}.

Definition with_pipe (p : option string) (w : World) : World :=
  {| fs := fs w; rrdump_pipe := p; console := console w;
     effects := effects w; programs := programs w; starting := starting w;
     gone := gone w; statuses := statuses w; sigint := sigint w |}.

Definition with_console (c : list Msg) (w : World) : World :=
  {| fs := fs w; rrdump_pipe := rrdump_pipe w; console := c;
     effects := effects w; programs := programs w; starting := starting w;
     gone := gone w; statuses := statuses w; sigint := sigint w |}.

Definition with_effects (e : list Effect) (w : World) : World :=
  {| fs := fs w; rrdump_pipe := rrdump_pipe w; console := console w;
     effects := e; programs := programs w; starting := starting w;
     gone := gone w; statuses := statuses w; sigint := sigint w |}.

Definition with_starting (s : gmap string nat) (w : World) : World :=
  {| fs := fs w; rrdump_pipe := rrdump_pipe w; console := console w;
     effects := effects w; programs := programs w; starting := s;
     gone := gone w; statuses := statuses w; sigint := sigint w |}.

Definition with_sigint (s : option State) (w : World) : World :=
  {| fs := fs w; rrdump_pipe := rrdump_pipe w; console := console w;
     effects := effects w; programs := programs w; starting := starting w;
     gone := gone w; statuses := statuses w; sigint := s |}.

(** ** Exceptions and the monad *)

Inductive result (A : Type) :=
| Ok (a : A)
| Raise (e : exn)
| Diverge.
Arguments Ok {A} a.
Arguments Raise {A} e.
Arguments Diverge {A}.

Definition M (A : Type) : Type := World -> result A * World.

Definition ret {A} (a : A) : M A := fun w => (Ok a, w).
Definition raise {A} (e : exn) : M A := fun w => (Raise e, w).
Definition diverge {A} : M A := fun w => (Diverge, w).

Definition bind {A B} (m : M A) (k : A -> M B) : M B :=
  fun w =>
    match m w with
    | (Ok a, w') => k a w'
    | (Raise e, w') => (Raise e, w')
    | (Diverge, w') => (Diverge, w')
    end.

Declare Scope py_scope.
Delimit Scope py_scope with py.
Notation "x <- m ;; k" := (bind m (fun x => k))
  (at level 100, m at next level, right associativity) : py_scope.
Notation "m ;; k" := (bind m (fun _ => k))
  (at level 100, right associativity) : py_scope.
Open Scope py_scope.

(** [try: body except E: handler], [catches] telling which exceptions
    [E] names. *)
Definition try_except {A} (body : M A) (catches : exn -> bool)
    (handler : M A) : M A :=
  fun w =>
    match body w with
    | (Raise e, w') => if catches e then handler w' else (Raise e, w')
    | r => r
    end.

(** [l[i]] for a list and an [int] index that is not negative. *)
Definition getitem {A} (l : list A) (i : nat) : M A :=
  match l !! i with
  | Some x => ret x
  | None => raise IndexError
  end.

(** [l[k]] for a list and a [str] index: "list indices must be integers,
    not str". *)
Definition getitem_str {A} (l : list A) (k : string) : M A :=
  raise TypeError.

(** ** The operating system, as the program uses it *)

Definition print (m : Msg) : M unit :=
  fun w => (Ok tt, with_console (console w ++ [m]) w).

Definition emit (e : Effect) : M unit :=
  fun w => (Ok tt, with_effects (effects w ++ [e]) w).

(** [sys.exit(code)] *)
Definition sys_exit {A} (code : Z) : M A := raise (SystemExit code).

(** [os.path.exists(path)] *)
Definition os_path_exists (path : string) : M bool :=
  fun w => (Ok (match fs w !! path with Some _ => true | None => false end), w).

(** [os.unlink(path)]: fails on a missing path and on a directory. *)
Definition os_unlink (path : string) : M unit :=
  fun w =>
    match fs w !! path with
    | Some (Fifo _) | Some (File _) => (Ok tt, with_fs (delete path (fs w)) w)
    | Some Dir | None => (Raise OSError, w)
    end.

(** [open(path, 'w')]: creates the file or empties it; fails on a
    directory; on a FIFO it waits for a reader, and the program has
    none. *)
Definition open_w (path : string) : M unit :=
  fun w =>
    match fs w !! path with
    | Some Dir => (Raise IOError, w)
    | Some (Fifo _) => (Diverge, w)
    | Some (File _) | None =>
        (Ok tt, with_fs (<[path := File (Text "")]> (fs w)) w)
    end.

(** The file object's buffer reaching the disk when its [with] block
    ends. *)
Definition store (path : string) (c : Content) : M unit :=
  fun w => (Ok tt, with_fs (<[path := File c]> (fs w)) w).

(** [with open(path, 'r') as f: f.read()]: the whole content; of a FIFO,
    everything its writer delivers. *)
Definition read_file (path : string) : M Content :=
  fun w =>
    match fs w !! path with
    | Some (File c) => (Ok c, w)
    | Some (Fifo d) => (Ok (Text d), with_fs (<[path := Fifo ""]> (fs w)) w)
    | Some Dir | None => (Raise IOError, w)
    end.

(** [with open(path, 'r') as d: json.load(d)] *)
Definition json_load (path : string) : M json :=
  c <- read_file path ;;
  match c with
  | Document j => ret j
  | Text _ | Ini _ | Torn => raise ValueError
  end.

(** [tmp[key] = ...] needs [tmp] to be a dict. *)
Definition as_dict (tmp : json) : M (gmap string json) :=
  match tmp with
  | JObj m => ret m
  | _ => raise TypeError
  end.

(** [with open(path, 'w') as d: json.dump(tmp, d)], for [tmp] the dict
    [m] with the subject [s] under ['config'].  The file is emptied
    first; a subject that cannot be encoded leaves it torn. *)
Definition json_dump_config (path : string) (m : gmap string json)
    (s : Subject) : M unit :=
  open_w path ;;
  match subject_json s with
  | inr sj =>
      let doc := Document (JObj (<["config" := sj]> m)) in
      store path doc ;; emit (Wrote path doc)
  | inl e => store path Torn ;; raise e
  end.

Definition is_spawn (e : Effect) : bool :=
  match e with Spawned _ => true | _ => false end.

Definition spawn_count (es : list Effect) : nat :=
  length (List.filter is_spawn es).

(** [subprocess.Popen(cmd, ...)]: [OSError] when the command cannot be
    executed; otherwise the child runs on its own and the files it makes
    appear. *)
Definition Popen (cmd : list string) : M Handle :=
  fun w =>
    match cmd with
    | prog :: _ =>
        match programs w !! prog with
        | Some files =>
            let h := {| child := spawn_count (effects w); argv := cmd |} in
            (Ok h,
             with_effects (effects w ++ [Spawned cmd])
               (with_fs (foldr (fun pn m => <[pn.1 := pn.2]> m) (fs w) files) w))
        | None => (Raise OSError, w)
        end
    | [] => (Raise IndexError, w)
    end.

(** [h.wait()]: the child's exit status. *)
Definition Popen_wait (h : Handle) : M Z :=
  fun w =>
    (Ok (default 0 (statuses w !! child h)),
     with_effects (effects w ++ [Waited h]) w).

Definition SIGKILL : Z := 9.

(** [os.kill(target, sig)]: [OSError] when there is no such process. *)
Definition os_kill (target sig : Z) : M unit :=
  fun w =>
    if decide (target ∈ gone w) then (Raise OSError, w)
    else (Ok tt, with_effects (effects w ++ [Killed target sig]) w).

(** Modelled from the spec: [util.process_is_alive] belongs to the
    package [syscallreplay], whose code is not embedded here.  The
    dispatch loop waits "until the reported PID is confirmed to correspond
    to a live OS process"; the answer to each check comes from the world's
    [starting] table. *)
Definition process_is_alive (p : string) : M bool :=
  fun w =>
    match starting w !! p with
    | Some O => (Ok true, w)
    | Some (S n) => (Ok false, with_starting (<[p := n]> (starting w)) w)
    | None => (Ok false, w)
    end.

(** [int(s)] *)
Definition py_int (s : string) : M Z :=
  match Py.int s with
  | Some z => ret z
  | None => raise ValueError
  end.

(** [cfg.read(ini_path)] followed by [cfg.sections()], with the check
    that the path is among the files read.  A path that cannot be opened
    is skipped by the parser and so [IOError] is raised by the caller's
    check.  In plain bytes the parser finds no section when every line is
    blank or a comment, the empty file included, and raises on the first
    other line, which no section header precedes.  On the one line of a
    document the parser raises as well, unless it is an array that is
    not empty, whose bracket the parser takes for a section header, with
    a name that the model does not spell out and no option. *)
Definition cfg_read (ini_path : string) :
    M (list (string * gmap string string)) :=
  fun w =>
    match fs w !! ini_path with
    | Some (File (Ini secs)) => (Ok secs, w)
    | Some (File (Text s)) | Some (Fifo s) =>
        if Py.no_sections s then (Ok [], w) else (Raise ParsingError, w)
    | Some (File (Document (JArr (_ :: _)))) => (Ok [("", ∅)], w)
    | Some (File (Document _)) | Some (File Torn) => (Raise ParsingError, w)
    | Some Dir | None => (Raise IOError, w)
    end.

(** [cfg.get(section, option)] *)
Definition cfg_get (section : string * gmap string string)
    (option : string) : M string :=
  match section.2 !! option with
  | Some v => ret v
  | None => raise NoOptionError
  end.

(** The interrupt, if it is due on entry to state [st]. *)
Definition enter (st : State) : M unit :=
  fun w =>
    if decide (sigint w = Some st)
    then (Raise KeyboardInterrupt, with_sigint None w)
    else (Ok tt, w).

(** The status the process ends with: the argument of [sys.exit], or 1
    when an exception reaches the interpreter; none when the program does
    not end. *)
Definition exit_status {A} (r : result A) : option Z :=
  match r with
  | Ok _ => Some 0
  | Raise (SystemExit code) => Some code
  | Raise _ => Some 1
  | Diverge => None
  end.

(** ** The program *)

Section Coordinator.

(** The constants of the module [consts], which the program imports:
    the directory of the tests, the log that rr's output goes to and the
    named pipe.  Their values are left open. *)
Variables DEFAULT_CONFIG_PATH PROC_FILE RR_PIPE : string.

(** *** get_message *)

(** [while not os.path.exists(pipe_name): continue] *)
Fixpoint wait_for_path (fuel : nat) (path : string) : M unit :=
  match fuel with
  | O => diverge
  | S fuel' =>
      b <- os_path_exists path ;;
      if b then ret tt else wait_for_path fuel' path
  end.

(** [rrdump_pipe = open(pipe_name, 'r')].  The bytes of a structured
    file are outside the model, which has no stream to give for one. *)
Definition open_pipe (pipe_name : string) : M unit :=
  fun w =>
    match fs w !! pipe_name with
    | Some (Fifo d) => (Ok tt, with_pipe (Some d) w)
    | Some (File (Text s)) => (Ok tt, with_pipe (Some s) w)
    | Some (File _) | Some Dir | None => (Raise IOError, w)
    end.

(** [rrdump_pipe.read(1)]: the next byte, or [''] once the writer has
    closed its end and nothing is left. *)
Definition pipe_read1 : M string :=
  fun w =>
    match rrdump_pipe w with
    | Some (String c rest) => (Ok (String c ""), with_pipe (Some rest) w)
    | Some EmptyString => (Ok "", w)
    | None => (Raise AttributeError, w)
    end.

(** The [while True] loop, entered with the bytes read so far. *)
Fixpoint read_line (fuel : nat) (buf : string) : M string :=
  match fuel with
  | O => diverge
  | S fuel' =>
      c <- pipe_read1 ;;
      let buf := buf +:+ c in
      if String.eqb buf "" then ret ""
      else if bool_decide (Py.last_char buf = Some Py.LF) then ret buf
      else read_line fuel' buf
  end.

Definition get_message (fuel : nat) (pipe_name : string) : M string :=
  (fun w =>
     match rrdump_pipe w with
     | None => (wait_for_path fuel pipe_name ;; open_pipe pipe_name) w
     | Some _ => (Ok tt, w)
     end) ;;
  read_line fuel "".

(** *** get_configuration *)

(** The body of [for i in sections]. *)
Definition parse_subject (i : string * gmap string string) : M Subject :=
  ev <- cfg_get i "event" ;;
  rp <- cfg_get i "pid" ;;
  tf <- cfg_get i "trace_file" ;;
  ts <- cfg_get i "trace_start" ;;
  te <- cfg_get i "trace_end" ;;
  ev' <- cfg_get i "event" ;;
  ret {| event := ev; rec_pid := rp; trace_file := tf; trace_start := ts;
         trace_end := te; injected_state_file := ev' +:+ "_state.json";
         other_procs := [];
         mmap_backing_files := i.2 !! "mmap_backing_files";
         checker := i.2 !! "checker";
         mutator := i.2 !! "mutator";
         pid := None; handle := None |}.

Fixpoint parse_subjects (sections : list (string * gmap string string)) :
    M (list Subject) :=
  match sections with
  | [] => ret []
  | i :: rest =>
      s <- parse_subject i ;;
      ss <- parse_subjects rest ;;
      ret (s :: ss)
  end.

Definition _sort_by_event (sub : Subject) : M Z := py_int (event sub).

(** [list.sort(key=...)] computes every key first, then sorts by key and
    keeps elements of equal key in their order.  That determines the
    result, which insertion from the right before the first element of
    greater or equal key produces. *)
Fixpoint sort_keys (l : list Subject) : M (list (Z * Subject)) :=
  match l with
  | [] => ret []
  | s :: rest =>
      k <- _sort_by_event s ;;
      ks <- sort_keys rest ;;
      ret ((k, s) :: ks)
  end.

Fixpoint insert_by_key (x : Z * Subject) (l : list (Z * Subject)) :
    list (Z * Subject) :=
  match l with
  | [] => [x]
  | y :: l' => if x.1 <=? y.1 then x :: l else y :: insert_by_key x l'
  end.

Definition list_sort (l : list Subject) : M (list Subject) :=
  ks <- sort_keys l ;;
  ret (snd <$> foldr insert_by_key [] ks).

Definition get_configuration (ini_path : string) :
    M (string * list Subject) :=
  sections <- cfg_read ini_path ;;
  rr_dir_section <- getitem sections 0 ;;
  rr_dir <- cfg_get rr_dir_section "rr_dir" ;;
  let sections := drop 1 sections in
  (if (length sections =? 0)%nat
   then print MsgNoOpportunities ;; sys_exit 0
   else ret tt) ;;
  subjects <- parse_subjects sections ;;
  subjects <- list_sort subjects ;;
  ret (rr_dir, subjects).

(** *** execute_rr *)

Definition events_str (subjects : list Subject) : string :=
  foldl (fun acc i => acc +:+ rec_pid i +:+ ":" +:+ event i +:+ ",")
        "" subjects.

Definition execute_rr (rr_dir : string) (subjects : list Subject) : M unit :=
  let command := ["rr"; "replay"; "-a"; "-n"; events_str subjects; rr_dir] in
  open_w PROC_FILE ;;
  _ <- Popen command ;;
  ret tt.

(** *** process_messages *)

(** [while not util.process_is_alive(pid): print('waiting...')] *)
Fixpoint wait_alive (fuel : nat) (p : string) : M unit :=
  match fuel with
  | O => diverge
  | S fuel' =>
      b <- process_is_alive p ;;
      if b then ret tt else print MsgWaiting ;; wait_alive fuel' p
  end.

(** [s] is the first dict of [subjects] whose event is [ev], not a copy:
    what the loop body assigns through [s] shows in [subjects], at that
    position. *)
Definition store_subject (s' : Subject) (ev : string)
    (subjects : list Subject) : list Subject :=
  match list_find (fun x => event x = ev) subjects with
  | Some (i, _) => <[i := s']> subjects
  | None => subjects
  end.

(** The body of the [while message != ''] loop up to the next read; it
    returns the subjects as the message leaves them. *)
Definition process_message (fuel : nat) (subjects : list Subject)
    (message : string) : M (list Subject) :=
  let parts := Py.split " " message in
  verb <- getitem parts 0 ;;
  let inject := Py.drop_last (Py.strip verb) in
  ev <- getitem parts 2 ;;
  p <- getitem parts 4 ;;
  wait_alive fuel p ;;
  let operating := filter (fun x => event x = ev) subjects in
  s <- getitem operating 0 ;;
  if String.eqb inject "INJECT" then
    tmp <- json_load (injected_state_file s) ;;
    let s := set_pid p s in
    m <- as_dict tmp ;;
    json_dump_config (injected_state_file s) m s ;;
    h <- Popen ["inject"; "--verbosity=40"; injected_state_file s] ;;
    ret (store_subject (set_handle h s) ev subjects)
  else if String.eqb inject "DONT_INJECT" then
    ret (store_subject (append_other_proc p s) ev subjects)
  else ret subjects.

Fixpoint dispatch (fuel : nat) (subjects : list Subject)
    (message : string) : M (list Subject) :=
  match fuel with
  | O => diverge
  | S fuel' =>
      if String.eqb message "" then ret subjects
      else
        subjects <- process_message fuel' subjects message ;;
        message <- get_message fuel' RR_PIPE ;;
        dispatch fuel' subjects message
  end.

Definition process_messages (fuel : nat) (subjects : list Subject) :
    M (list Subject) :=
  message <- get_message fuel RR_PIPE ;;
  dispatch fuel subjects message.

(** *** wait_on_handles *)

(** [for i in s['other_procs']]: the argument of the debug call is
    evaluated first, then the kill is tried. *)
Fixpoint kill_other_procs (s : Subject) (rest : list string) : M unit :=
  match rest with
  | [] => ret tt
  | i :: rest' =>
      _ <- getitem_str (other_procs s) i ;;
      try_except (target <- py_int i ;; os_kill target SIGKILL)
                 (fun e => match e with OSError => true | _ => false end)
                 (ret tt) ;;
      kill_other_procs s rest'
  end.

Fixpoint wait_on_handles (subjects : list Subject) : M unit :=
  match subjects with
  | [] => ret tt
  | s :: rest =>
      r <- match handle s with
           | Some h => Popen_wait h
           | None => print (MsgNoHandle s) ;; ret (-1)
           end ;;
      kill_other_procs s (other_procs s) ;;
      (if negb (r =? 0)
       then print (MsgInjectorFailed (event s) (rec_pid s))
       else ret tt) ;;
      wait_on_handles rest
  end.

(** *** cleanup *)

Definition cleanup : M unit :=
  b <- os_path_exists PROC_FILE ;;
  (if b then os_unlink PROC_FILE else ret tt) ;;
  b <- os_path_exists RR_PIPE ;;
  (if b then os_unlink RR_PIPE else ret tt).

(** *** main *)

(** The [enter] steps are where an interrupt that is due is delivered;
    the argument parser is left out, [testname] being its result. *)
Definition main (testname : string) (fuel : nat) : M unit :=
  enter PRECLEANUP ;;
  cleanup ;;
  enter LOAD_CONFIG ;;
  let test_dir := DEFAULT_CONFIG_PATH +:+ testname in
  b <- os_path_exists test_dir ;;
  (if b then ret tt else print (MsgTestMissing testname) ;; sys_exit 1) ;;
  cfg <- get_configuration (test_dir +:+ "/" +:+ "config.ini") ;;
  enter LAUNCH_REPLAY ;;
  execute_rr cfg.1 cfg.2 ;;
  enter DISPATCH ;;
  subjects <- process_messages fuel cfg.2 ;;
  enter SUPERVISE ;;
  wait_on_handles subjects ;;
  enter POSTCLEANUP ;;
  cleanup.

(** The [if __name__ == '__main__'] block.  An exception raised inside a
    handler is not caught by the clause next to it. *)
Definition rreplay (testname : string) (fuel : nat) : M unit :=
  fun w =>
    match (main testname fuel ;; sys_exit 0) w with
    | (Raise KeyboardInterrupt, w') =>
        (c <- read_file "proc.out" ;;
         print (MsgDump c) ;;
         cleanup ;;
         sys_exit 0) w'
    | (Raise e, w') =>
        if is_Exception e then (cleanup ;; sys_exit 1) w' else (Raise e, w')
    | r => r
    end.

(** ** Notions used to state the properties *)

(** The part of [main] that comes before dispatch: the first cleanup,
    the configuration and the launch of the replay. *)
Definition launch (testname : string) : M (list Subject) :=
  enter PRECLEANUP ;;
  cleanup ;;
  enter LOAD_CONFIG ;;
  let test_dir := DEFAULT_CONFIG_PATH +:+ testname in
  b <- os_path_exists test_dir ;;
  (if b then ret tt else print (MsgTestMissing testname) ;; sys_exit 1) ;;
  cfg <- get_configuration (test_dir +:+ "/" +:+ "config.ini") ;;
  enter LAUNCH_REPLAY ;;
  execute_rr cfg.1 cfg.2 ;;
  ret cfg.2.

(** The number a subject is sorted by, where its event is one. *)
Definition event_number (s : Subject) : Z := default 0 (Py.int (event s)).

(** The event of the subject that a line of the supervisor's output
    reports on. *)
Definition reported (m : Msg) : option Z :=
  match m with
  | MsgNoHandle s => Some (event_number s)
  | MsgInjectorFailed ev _ => Some (default 0 (Py.int ev))
  | _ => None
  end.

(** The bytes that a call of [get_message] has before it: those left on
    the open pipe or, on the first call, those of the FIFO it opens. *)
Definition pipe_ready (pipe_name : string) (w : World) (data : string) :
    Prop :=
  rrdump_pipe w = Some data
  \/ (rrdump_pipe w = None /\ fs w !! pipe_name = Some (Fifo data)).

(** The order the sort puts the subjects in. *)
Definition by_event (a b : Subject) : Prop :=
  event_number a <= event_number b.

Definition is_kill (e : Effect) : bool :=
  match e with Killed _ _ => true | _ => false end.

(** A string without a line terminator. *)
Fixpoint no_LF (s : string) : bool :=
  match s with
  | EmptyString => true
  | String c s' => negb (Ascii.eqb c Py.LF) && no_LF s'
  end.




(** *** Messages and configurations, as they should be *)

(** A string in which the character does not occur, and one without
    whitespace. *)
Fixpoint no_char (c : ascii) (s : string) : bool :=
  match s with
  | EmptyString => true
  | String x s' => negb (Ascii.eqb x c) && no_char c s'
  end.

Fixpoint no_space (s : string) : bool :=
  match s with
  | EmptyString => true
  | String x s' => negb (Py.is_space x) && no_space s'
  end.

(** A message in the layout that the docstring of [process_messages]
    gives. *)
Definition format_message (verb ev p rp : string) : string :=
  verb +:+ ": EVENT: " +:+ ev +:+ " PID: " +:+ p +:+ " REC_PID: " +:+ rp
  +:+ String Py.LF "".

(** The options that [get_configuration] reads without a fallback. *)
Definition required_options : list string :=
  ["event"; "pid"; "trace_file"; "trace_start"; "trace_end"].

Definition has_required (i : string * gmap string string) : Prop :=
  Forall (fun k => is_Some (i.2 !! k)) required_options.

(** The subject that a section with the required options stands for. *)
Definition subject_of (i : string * gmap string string) : Subject :=
  {| event := default "" (i.2 !! "event");
     rec_pid := default "" (i.2 !! "pid");
     trace_file := default "" (i.2 !! "trace_file");
     trace_start := default "" (i.2 !! "trace_start");
     trace_end := default "" (i.2 !! "trace_end");
     injected_state_file := default "" (i.2 !! "event") +:+ "_state.json";
     other_procs := [];
     mmap_backing_files := i.2 !! "mmap_backing_files";
     checker := i.2 !! "checker";
     mutator := i.2 !! "mutator";
     pid := None; handle := None |}.

(** A subject as the configuration leaves it, before any message. *)
Definition fresh (s : Subject) : Prop :=
  other_procs s = [] /\ pid s = None /\ handle s = None
  /\ injected_state_file s = event s +:+ "_state.json".

(** The part of rr's event filter that one subject contributes. *)
Definition event_filter (s : Subject) : string :=
  rec_pid s +:+ ":" +:+ event s +:+ ",".

(** What the supervisor prints for one subject, given the exit statuses
    of the children. *)
Definition supervisor_report (sts : list Z) (s : Subject) : list Msg :=
  match handle s with
  | Some h =>
      if default 0 (sts !! child h) =? 0 then []
      else [MsgInjectorFailed (event s) (rec_pid s)]
  | None => [MsgNoHandle s; MsgInjectorFailed (event s) (rec_pid s)]
  end.

(** Exceptions with which the program may end: [sys.exit] only with 0
    or 1. *)
Definition exit_0_or_1 (e : exn) : Prop :=
  match e with
  | SystemExit code => code = 0 \/ code = 1
  | _ => True
  end.

(** A computation that raises only exceptions that satisfy [P]. *)
Definition raises_only {A} (P : exn -> Prop) (m : M A) : Prop :=
  forall w e w', m w = (Raise e, w') -> P e.


(** The subjects the supervisor gets to: the loop over a subject's
    skipped pids raises at the first of them (it indexes the list by a
    [str]), so the first subject with a skipped pid is the last one that
    is handled. *)
Fixpoint supervised (subjects : list Subject) : list Subject :=
  match subjects with
  | [] => []
  | s :: rest =>
      s :: match other_procs s with
           | [] => supervised rest
           | _ :: _ => []
           end
  end.

(** What the supervisor prints for a subject it gets to: the whole
    report when no pid was skipped for it; with a skipped pid only the
    no-handle line, the failure line coming after the loop over the
    skipped pids. *)
Definition supervisor_lines (sts : list Z) (s : Subject) : list Msg :=
  match other_procs s with
  | [] => supervisor_report sts s
  | _ :: _ => match handle s with Some _ => [] | None => [MsgNoHandle s] end
  end.

(** ** A test to run the program on *)

(** Values for the three constants, the file names being those of the
    program's own log messages. *)
Definition demo_tests : string := "/home/user/.crashsim/".
Definition demo_log : string := "proc.out".
Definition demo_pipe : string := "rrdump_proc.pipe".

Definition demo_rr_section : string * gmap string string :=
  ("rr_recording", {[ "rr_dir" := "/tmp/rr" ]}).

Definition demo_section (name ev p : string) : string * gmap string string :=
  (name,
   <["event" := ev]> (<["pid" := p]> (<["trace_file" := "t.strace"]>
   (<["trace_start" := "0"]> {[ "trace_end" := "10" ]})))).

(** The subject that [get_configuration] makes of [demo_section]. *)
Definition demo_subject (ev p : string) : Subject :=
  {| event := ev; rec_pid := p; trace_file := "t.strace";
     trace_start := "0"; trace_end := "10";
     injected_state_file := ev +:+ "_state.json"; other_procs := [];
     mmap_backing_files := None; checker := None; mutator := None;
     pid := None; handle := None |}.

(** What rr has made by the time the coordinator looks: the pipe, with
    the messages it will write, and some output in the log. *)
Definition demo_rr_files (messages : string) : list (string * Node) :=
  [(demo_pipe, Fifo messages); (demo_log, File (Text "rr: replaying"))].

(** The test "demo" with the given sections in its config.ini, a state
    file for event 3, a pipe left over from an earlier run, rr and the
    injector installed, and pid 100 seen alive at the second look. *)
Definition demo_world (sections : list (string * gmap string string))
    (messages : string) (interrupt : option State) : World :=
  {| fs := <[demo_tests +:+ "demo" := Dir]>
           (<[demo_tests +:+ "demo/config.ini" := File (Ini sections)]>
           (<["3_state.json" := File (Document (JObj ∅))]>
           {[ demo_pipe := Fifo "stale" ]}));
     rrdump_pipe := None;
     console := [];
     effects := [];
     programs := <["rr" := demo_rr_files messages]>
                 {[ "inject" := @nil (string * Node) ]};
     starting := {[ "100" := 1%nat ]};
     gone := ∅;
     statuses := [];
     sigint := interrupt |}.

(** A world in the middle of dispatch: the pipe open with [data] left on
    it, a state file for event 3, the injector installed. *)
Definition demo_dispatching (data : string) : World :=
  {| fs := <["3_state.json" := File (Document (JObj ∅))]>
           {[ demo_log := File (Text "rr: replaying") ]};
     rrdump_pipe := Some data;
     console := [];
     effects := [Spawned ["rr"; "replay"; "-a"; "-n"; "200:3,201:7,"; "/tmp/rr"]];
     programs := {[ "inject" := @nil (string * Node) ]};
     starting := {[ "100" := 1%nat ]};
     gone := ∅;
     statuses := [];
     sigint := None |}.

(** Messages of rr, and a world with both of the program's files left
    behind. *)
Definition demo_inject : string :=
  Py.line "INJECT: EVENT: 3 PID: 100 REC_PID: 200".
Definition demo_dont_inject : string :=
  Py.line "DONT_INJECT: EVENT: 3 PID: 100 REC_PID: 200".
Definition demo_unmatched : string :=
  Py.line "INJECT: EVENT: 4 PID: 100 REC_PID: 200".

Definition demo_leftovers : World :=
  with_fs (<[demo_log := File (Text "rr: replaying")]>
           {[ demo_pipe := Fifo "stale" ]})
          (demo_dispatching "").

(** ** Reasoning about the monad *)

Lemma bind_Ok {A B} (m : M A) (k : A -> M B) w a w' :
  m w = (Ok a, w') -> bind m k w = k a w'.
Proof. intros H. unfold bind. now rewrite H. Qed.

Lemma bind_Raise {A B} (m : M A) (k : A -> M B) w e w' :
  m w = (Raise e, w') -> bind m k w = (Raise e, w').
Proof. intros H. unfold bind. now rewrite H. Qed.

Lemma bind_Diverge {A B} (m : M A) (k : A -> M B) w w' :
  m w = (Diverge, w') -> bind m k w = (Diverge, w').
Proof. intros H. unfold bind. now rewrite H. Qed.

Lemma bind_assoc {A B C} (m : M A) (k : A -> M B) (k' : B -> M C) w :
  bind (bind m k) k' w = bind m (fun a => bind (k a) k') w.
Proof. unfold bind. destruct (m w) as [[a|e|] w']; reflexivity. Qed.

Lemma with_fs_same w : with_fs (fs w) w = w.
Proof. now destruct w. Qed.

(** ** Cleanup *)

Lemma unlink_present path w :
  is_Some (fs w !! path) -> fs w !! path <> Some Dir ->
  os_unlink path w = (Ok tt, with_fs (delete path (fs w)) w).
Proof.
  intros [n Hn] Hd. unfold os_unlink. rewrite Hn in *.
  destruct n; [congruence | reflexivity | reflexivity].
Qed.

Lemma remove_if_exists path w :
  fs w !! path <> Some Dir ->
  (b <- os_path_exists path ;; if b then os_unlink path else ret tt) w
  = (Ok tt, with_fs (delete path (fs w)) w).
Proof.
  intros Hd. unfold bind, os_path_exists.
  destruct (fs w !! path) as [n|] eqn:Hn.
  - apply unlink_present; [rewrite Hn; eauto | congruence].
  - unfold ret. rewrite delete_id by exact Hn. now rewrite with_fs_same.
Qed.

Lemma cleanup_runs w :
  fs w !! PROC_FILE <> Some Dir -> fs w !! RR_PIPE <> Some Dir ->
  cleanup w = (Ok tt, with_fs (delete RR_PIPE (delete PROC_FILE (fs w))) w).
Proof.
  intros Hp Hr. unfold cleanup.
  change (bind (b <- os_path_exists PROC_FILE ;;
                if b then os_unlink PROC_FILE else ret tt)
               (fun _ => b <- os_path_exists RR_PIPE ;;
                         if b then os_unlink RR_PIPE else ret tt) w = 
          (Ok tt, with_fs (delete RR_PIPE (delete PROC_FILE (fs w))) w)).
  erewrite bind_Ok by (apply remove_if_exists; exact Hp).
  rewrite remove_if_exists; [reflexivity |].
  simpl. destruct (decide (PROC_FILE = RR_PIPE)) as [->|Hne].
  - rewrite lookup_delete_eq. congruence.
  - rewrite lookup_delete_ne by exact Hne. exact Hr.
Qed.

(** C6.  Cleanup removes the log and the pipe when they are there (as
    files or FIFOs, which is what the program and rr make them), leaves a
    world that has neither, and changes nothing when both were already
    absent; a second call right after the first succeeds and changes
    nothing. *)
Theorem cleanup_idempotent (w : World) :
  fs w !! PROC_FILE <> Some Dir ->
  fs w !! RR_PIPE <> Some Dir ->
  let w1 := with_fs (delete RR_PIPE (delete PROC_FILE (fs w))) w in
  cleanup w = (Ok tt, w1)
  /\ fs w1 !! PROC_FILE = None
  /\ fs w1 !! RR_PIPE = None
  /\ cleanup w1 = (Ok tt, w1)
  /\ (fs w !! PROC_FILE = None -> fs w !! RR_PIPE = None -> w1 = w).
Proof.
  intros Hp Hr w1.
  assert (Hp1 : fs w1 !! PROC_FILE = None).
  { subst w1. simpl. destruct (decide (RR_PIPE = PROC_FILE)) as [->|Hne].
    - apply lookup_delete_eq.
    - rewrite lookup_delete_ne by exact Hne. apply lookup_delete_eq. }
  assert (Hr1 : fs w1 !! RR_PIPE = None).
  { subst w1. simpl. apply lookup_delete_eq. }
  split; [now apply cleanup_runs |].
  split; [exact Hp1 |]. split; [exact Hr1 |]. split.
  - rewrite cleanup_runs by congruence.
    rewrite !delete_id by (try rewrite delete_id; assumption).
    now rewrite with_fs_same.
  - intros Hp0 Hr0. subst w1.
    rewrite (delete_id _ PROC_FILE) by exact Hp0.
    rewrite delete_id by exact Hr0. apply with_fs_same.
Qed.

(** ** The pipe reader *)

Lemma append_nil_l (s : string) : "" +:+ s = s.
Proof. reflexivity. Qed.

Lemma append_cons c (a b : string) : String c a +:+ b = String c (a +:+ b).
Proof. reflexivity. Qed.

Lemma append_empty_r s : s +:+ "" = s.
Proof.
  induction s as [|c s IH]; [reflexivity |]. now rewrite append_cons, IH.
Qed.

Lemma append_snoc a c b : (a +:+ String c "") +:+ b = a +:+ String c b.
Proof.
  induction a as [|x a IH]; [reflexivity |]. now rewrite !append_cons, IH.
Qed.

Lemma append_not_empty a c b : a +:+ String c b <> "".
Proof. destruct a; [rewrite append_nil_l | rewrite append_cons]; discriminate. Qed.

Lemma snoc_not_empty a c : a +:+ String c "" <> "".
Proof. apply append_not_empty. Qed.

Lemma last_char_snoc a c : Py.last_char (a +:+ String c "") = Some c.
Proof.
  induction a as [|x a IH]; [reflexivity |]. rewrite append_cons.
  pose proof (snoc_not_empty a c) as Hne.
  destruct (a +:+ String c "") as [|y t]; [contradiction | exact IH].
Qed.

Lemma no_LF_snoc a c :
  no_LF a = true -> Ascii.eqb c Py.LF = false ->
  no_LF (a +:+ String c "") = true.
Proof.
  intros Ha Hc. induction a as [|x a IH].
  - rewrite append_nil_l. simpl. now rewrite Hc.
  - rewrite append_cons. simpl in *.
    apply andb_true_iff in Ha as [Hx Ha]. rewrite Hx. now apply IH.
Qed.

Lemma no_LF_last s : no_LF s = true -> Py.last_char s <> Some Py.LF.
Proof.
  induction s as [|c s IH]; simpl; [discriminate |].
  intros [Hc Hs]%andb_true_iff. destruct s as [|d s].
  - intros [= ->]. now rewrite Ascii.eqb_refl in Hc.
  - now apply IH.
Qed.

Lemma with_pipe_twice a b w : with_pipe a (with_pipe b w) = with_pipe a w.
Proof. reflexivity. Qed.

(** One turn of the loop on a byte that does not end the line. *)
Lemma read_line_byte fuel buf c rest w :
  rrdump_pipe w = Some (String c rest) -> Ascii.eqb c Py.LF = false ->
  read_line (S fuel) buf w
  = read_line fuel (buf +:+ String c "") (with_pipe (Some rest) w).
Proof.
  intros Hp Hc. simpl. unfold bind, pipe_read1. rewrite Hp.
  destruct (String.eqb_spec (buf +:+ String c "") "") as [E|_];
    [now apply snoc_not_empty in E |].
  rewrite last_char_snoc. rewrite bool_decide_eq_false_2; [reflexivity |].
  intros [= ->]. now rewrite Ascii.eqb_refl in Hc.
Qed.

(** One turn of the loop on the byte that ends the line. *)
Lemma read_line_LF fuel buf rest w :
  rrdump_pipe w = Some (String Py.LF rest) ->
  read_line (S fuel) buf w
  = (Ok (buf +:+ String Py.LF ""), with_pipe (Some rest) w).
Proof.
  intros Hp. simpl. unfold bind, pipe_read1. rewrite Hp.
  destruct (String.eqb_spec (buf +:+ String Py.LF "") "") as [E|_];
    [now apply snoc_not_empty in E |].
  rewrite last_char_snoc. now rewrite bool_decide_eq_true_2.
Qed.

Lemma read_line_full line : forall rest buf fuel w,
  no_LF line = true ->
  rrdump_pipe w = Some (line +:+ String Py.LF rest) ->
  (String.length line < fuel)%nat ->
  read_line fuel buf w
  = (Ok (buf +:+ line +:+ String Py.LF ""), with_pipe (Some rest) w).
Proof.
  induction line as [|c line IH]; intros rest buf fuel w Hl Hp Hf;
    (destruct fuel as [|fuel]; [simpl in Hf; lia |]); simpl in Hl, Hf.
  - rewrite append_nil_l in *. now apply read_line_LF.
  - rewrite append_cons in Hp.
    apply andb_true_iff in Hl as [Hc Hl]. apply negb_true_iff in Hc.
    rewrite (read_line_byte _ _ _ _ _ Hp Hc).
    rewrite (IH rest) by (try assumption; try reflexivity; lia).
    now rewrite append_snoc.
Qed.

Lemma read_line_nonempty fuel : forall buf w r w',
  buf <> "" -> read_line fuel buf w = (Ok r, w') -> r <> "".
Proof.
  induction fuel as [|fuel IH]; intros buf w r w' Hb; simpl;
    [discriminate |].
  unfold bind, pipe_read1.
  destruct (rrdump_pipe w) as [[|c rest]|]; [| |discriminate].
  - rewrite append_empty_r.
    destruct (String.eqb_spec buf "") as [E|_]; [contradiction |].
    case_bool_decide; [now intros [= <- _] | now apply IH].
  - destruct (String.eqb_spec (buf +:+ String c "") "") as [E|_];
      [now apply snoc_not_empty in E |].
    case_bool_decide.
    + intros [= <- _]. apply snoc_not_empty.
    + apply IH, snoc_not_empty.
Qed.

Lemma read_line_empty fuel w w' :
  read_line fuel "" w = (Ok "", w') -> rrdump_pipe w = Some "" /\ w' = w.
Proof.
  destruct fuel as [|fuel]; simpl; [discriminate |].
  unfold bind, pipe_read1.
  destruct (rrdump_pipe w) as [[|c rest]|] eqn:Hp; [| |discriminate].
  - rewrite append_nil_l. simpl. now intros [= <-].
  - rewrite append_nil_l. simpl. case_bool_decide.
    + discriminate.
    + intros Hr. now apply read_line_nonempty in Hr.
Qed.

Lemma read_line_spins fuel : forall buf data w,
  no_LF buf = true -> no_LF data = true -> buf +:+ data <> "" ->
  rrdump_pipe w = Some data ->
  (read_line fuel buf w).1 = Diverge.
Proof.
  induction fuel as [|fuel IH]; intros buf data w Hb Hd Hne Hp;
    [reflexivity |].
  destruct data as [|c rest].
  - simpl. unfold bind, pipe_read1. rewrite Hp.
    rewrite append_empty_r in *.
    destruct (String.eqb_spec buf "") as [E|_]; [contradiction |].
    rewrite bool_decide_eq_false_2 by now apply no_LF_last.
    apply (IH buf ""); try assumption. now rewrite append_empty_r.
  - simpl in Hd. apply andb_true_iff in Hd as [Hc Hd].
    apply negb_true_iff in Hc.
    rewrite (read_line_byte _ _ _ _ _ Hp Hc).
    apply (IH _ rest); try assumption; try reflexivity.
    + now apply no_LF_snoc.
    + rewrite append_snoc. apply append_not_empty.
Qed.

Lemma get_message_open fuel pipe_name data w :
  rrdump_pipe w = Some data ->
  get_message fuel pipe_name w = read_line fuel "" w.
Proof. intros Hp. unfold get_message, bind. now rewrite Hp. Qed.

(** When the reader returns the empty string, the pipe is open and at
    its end. *)
Lemma get_message_empty fuel pipe_name w w' :
  get_message fuel pipe_name w = (Ok "", w') -> rrdump_pipe w' = Some "".
Proof.
  unfold get_message. unfold bind at 1.
  destruct (match rrdump_pipe w with None => _ | Some _ => _ end)
    as [[[]|e|] w1]; try discriminate.
  intros Hr. apply read_line_empty in Hr as [Hr ->]. exact Hr.
Qed.

Lemma get_message_first fuel pipe_name data w :
  rrdump_pipe w = None -> fs w !! pipe_name = Some (Fifo data) ->
  get_message (S fuel) pipe_name w
  = read_line (S fuel) "" (with_pipe (Some data) w).
Proof.
  intros Hn Hf. unfold get_message, bind. cbv beta. rewrite Hn.
  cbn [wait_for_path]. unfold bind, os_path_exists, ret, open_pipe.
  now rewrite !Hf.
Qed.

Lemma get_message_ready fuel pipe_name data w :
  pipe_ready pipe_name w data ->
  get_message (S fuel) pipe_name w
  = read_line (S fuel) "" (with_pipe (Some data) w).
Proof.
  intros [Hp | [Hn Hf]].
  - rewrite (get_message_open _ _ _ _ Hp). f_equal.
    destruct w; simpl in *; now subst.
  - now apply get_message_first.
Qed.

(** The loop of [process_messages] ends normally only with the pipe at
    its end. *)
Lemma dispatch_ends_at_eof fuel : forall subjects message w subjects' w',
  dispatch fuel subjects message w = (Ok subjects', w') ->
  (message = "" -> rrdump_pipe w = Some "") ->
  rrdump_pipe w' = Some "".
Proof.
  induction fuel as [|fuel IH]; intros subjects message w subjects' w';
    simpl; [discriminate |].
  destruct (String.eqb_spec message "") as [E|_].
  - intros [= _ <-] Hm. now apply Hm.
  - unfold bind.
    destruct (process_message fuel subjects message w) as [[s1|e|] w1];
      try discriminate.
    destruct (get_message fuel RR_PIPE w1) as [[m|e|] w2] eqn:Hg;
      try discriminate.
    intros Hd _. apply (IH _ _ _ _ _ Hd). intros ->.
    now apply get_message_empty in Hg.
Qed.

(** C8.  A call of the reader, with [data] on the pipe.  If [data]
    starts with a line, the call returns that line with its terminator and
    leaves what follows on the pipe.  It returns the empty string when
    [data] is empty, and only then.  The dispatch loop returns at once on
    the empty string, goes on to the loop body on any other message, and
    so ends normally only with the pipe at its end. *)
Theorem get_message_line_or_end (pipe_name data : string) (w : World)
    (fuel : nat) :
  pipe_ready pipe_name w data ->
  (forall line rest,
      data = line +:+ String Py.LF rest -> no_LF line = true ->
      (String.length line <= fuel)%nat ->
      get_message (S fuel) pipe_name w
      = (Ok (Py.line line), with_pipe (Some rest) w))
  /\ (data = "" ->
      get_message (S fuel) pipe_name w = (Ok "", with_pipe (Some "") w))
  /\ (forall w', get_message (S fuel) pipe_name w = (Ok "", w') -> data = "")
  /\ (forall subjects, dispatch (S fuel) subjects "" w = (Ok subjects, w))
  /\ (forall subjects message, message <> "" ->
      dispatch (S fuel) subjects message w
      = (subjects' <- process_message fuel subjects message ;;
         message' <- get_message fuel RR_PIPE ;;
         dispatch fuel subjects' message') w)
  /\ (forall subjects subjects' w',
      process_messages (S fuel) subjects w = (Ok subjects', w') ->
      rrdump_pipe w' = Some "").
Proof.
  intros Hready. repeat split.
  - intros line rest -> Hl Hf.
    rewrite (get_message_ready _ _ _ _ Hready).
    rewrite (read_line_full line rest "" (S fuel)); try reflexivity;
      try assumption; lia.
  - intros ->. rewrite (get_message_ready _ _ _ _ Hready).
    simpl. unfold bind, pipe_read1. reflexivity.
  - intros w'. rewrite (get_message_ready _ _ _ _ Hready).
    intros Hr. apply read_line_empty in Hr as [Hr _]. simpl in Hr. congruence.
  - intros subjects message Hm. simpl.
    destruct (String.eqb_spec message "") as [E|_]; [contradiction |].
    reflexivity.
  - intros subjects subjects' w'. unfold process_messages, bind.
    destruct (get_message (S fuel) RR_PIPE w) as [[m|e|] w1] eqn:Hg;
      try discriminate.
    intros Hd. apply (dispatch_ends_at_eof _ _ _ _ _ _ Hd). intros ->.
    now apply get_message_empty in Hg.
Qed.

(** C9.  With a last line on the pipe that has bytes but no terminator,
    the call does not return, however long it runs. *)
Theorem partial_line_never_returns (pipe_name data : string) (w : World)
    (fuel : nat) :
  pipe_ready pipe_name w data ->
  data <> "" -> no_LF data = true ->
  (get_message fuel pipe_name w).1 = Diverge.
Proof.
  intros Hready Hne Hl. destruct fuel as [|fuel].
  - destruct Hready as [Hp | [Hn Hf]].
    + now rewrite (get_message_open _ _ _ _ Hp).
    + unfold get_message. unfold bind at 1. now rewrite Hn.
  - rewrite (get_message_ready _ _ _ _ Hready).
    apply (read_line_spins _ "" data); try reflexivity; assumption.
Qed.

(** ** The dispatch loop *)

(** The liveness wait prints and counts down; it leaves the rest of the
    world alone. *)
Lemma wait_alive_frame fuel : forall p w r w',
  wait_alive fuel p w = (r, w') ->
  fs w' = fs w /\ effects w' = effects w /\ rrdump_pipe w' = rrdump_pipe w
  /\ programs w' = programs w /\ sigint w' = sigint w.
Proof.
  induction fuel as [|fuel IH]; intros p w r w'; simpl.
  - now intros [= _ <-].
  - unfold bind, process_is_alive.
    destruct (starting w !! p) as [[|n]|].
    + now intros [= _ <-].
    + unfold print. intros Hw. now apply IH in Hw.
    + unfold print. intros Hw. now apply IH in Hw.
Qed.

(** The positional parse of a message with at least five fields. *)
Lemma process_message_parsed fuel subjects message w verb f1 ev f3 p rest :
  Py.split " " message = verb :: f1 :: ev :: f3 :: p :: rest ->
  process_message fuel subjects message w
  = (wait_alive fuel p ;;
     s <- getitem (filter (fun x => event x = ev) subjects) 0 ;;
     if String.eqb (Py.drop_last (Py.strip verb)) "INJECT" then
       tmp <- json_load (injected_state_file s) ;;
       m <- as_dict tmp ;;
       json_dump_config (injected_state_file s) m (set_pid p s) ;;
       h <- Popen ["inject"; "--verbosity=40"; injected_state_file s] ;;
       ret (store_subject (set_handle h (set_pid p s)) ev subjects)
     else if String.eqb (Py.drop_last (Py.strip verb)) "DONT_INJECT" then
       ret (store_subject (append_other_proc p s) ev subjects)
     else ret subjects) w.
Proof. intros Hs. unfold process_message. rewrite Hs. reflexivity. Qed.

(** [operating[0]] is the first subject of the list with that event. *)
Lemma operating_first ev (subjects : list Subject) s others :
  filter (fun x => event x = ev) subjects = s :: others ->
  exists i, list_find (fun x => event x = ev) subjects = Some (i, s).
Proof.
  induction subjects as [|y l IH]; [discriminate |].
  rewrite filter_cons. simpl. destruct (decide (event y = ev)) as [E|E].
  - intros [= -> _]. exists 0%nat. reflexivity.
  - intros Hf. destruct (IH Hf) as [i Hi]. exists (S i). now rewrite Hi.
Qed.

Lemma store_subject_first ev (subjects : list Subject) s others s' :
  filter (fun x => event x = ev) subjects = s :: others ->
  exists i, subjects !! i = Some s /\ event s = ev
    /\ (forall j y, subjects !! j = Some y -> (j < i)%nat -> event y <> ev)
    /\ store_subject s' ev subjects = <[i := s']> subjects.
Proof.
  intros Hf. destruct (operating_first _ _ _ _ Hf) as [i Hi].
  exists i. unfold store_subject. rewrite Hi.
  apply list_find_Some in Hi as (Hl & He & Hj). auto.
Qed.

(** C7.  A DONT_INJECT message whose event matches a subject, once its
    pid is seen alive: the loop body returns with the pid appended to the
    [other_procs] of the first subject with that event, every other key of
    that subject and every other subject as before, and the list of
    effects, so the processes spawned, unchanged. *)
Theorem dont_inject_records_pid (fuel : nat) (subjects : list Subject)
    (message : string) (w w1 : World) (verb f1 ev f3 p : string)
    (rest : list string) (s : Subject) (others : list Subject) :
  Py.split " " message = verb :: f1 :: ev :: f3 :: p :: rest ->
  Py.drop_last (Py.strip verb) = "DONT_INJECT" ->
  wait_alive fuel p w = (Ok tt, w1) ->
  filter (fun x => event x = ev) subjects = s :: others ->
  exists (i : nat) (s' : Subject),
    subjects !! i = Some s
    /\ (forall j y, subjects !! j = Some y -> (j < i)%nat -> event y <> ev)
    /\ process_message fuel subjects message w
       = (Ok (<[i := s']> subjects), w1)
    /\ effects w1 = effects w
    /\ other_procs s' = (other_procs s ++ [p])%list
    /\ event s' = event s /\ rec_pid s' = rec_pid s
    /\ trace_file s' = trace_file s /\ trace_start s' = trace_start s
    /\ trace_end s' = trace_end s
    /\ injected_state_file s' = injected_state_file s
    /\ mmap_backing_files s' = mmap_backing_files s
    /\ checker s' = checker s /\ mutator s' = mutator s
    /\ pid s' = pid s /\ handle s' = handle s.
Proof.
  intros Hs Hv Ha Hf.
  destruct (store_subject_first ev subjects s others
              (append_other_proc p s) Hf) as (i & Hi & He & Hj & Hst).
  exists i, (append_other_proc p s).
  split; [exact Hi |]. split; [exact Hj |]. split.
  - rewrite (process_message_parsed _ _ _ _ _ _ _ _ _ _ Hs).
    rewrite (bind_Ok _ _ _ _ _ Ha). rewrite Hf, Hv. simpl.
    unfold bind, getitem, ret. simpl. now rewrite Hst.
  - split; [now apply wait_alive_frame in Ha |]. repeat split.
Qed.

Lemma bind_ret {A B} (a : A) (k : A -> M B) w : bind (ret a) k w = k a w.
Proof. reflexivity. Qed.

Lemma json_load_document path j w :
  fs w !! path = Some (File (Document j)) -> json_load path w = (Ok j, w).
Proof. intros Hf. unfold json_load, bind, read_file. now rewrite Hf. Qed.



(** A message whose event no subject has. *)
Lemma process_message_unmatched fuel subjects message w w1 verb f1 ev f3 p
    rest :
  Py.split " " message = verb :: f1 :: ev :: f3 :: p :: rest ->
  wait_alive fuel p w = (Ok tt, w1) ->
  filter (fun x => event x = ev) subjects = [] ->
  process_message fuel subjects message w = (Raise IndexError, w1).
Proof.
  intros Hs Ha Hf.
  rewrite (process_message_parsed _ _ _ _ _ _ _ _ _ _ Hs).
  rewrite (bind_Ok _ _ _ _ _ Ha). now rewrite Hf.
Qed.

(** At any turn of the loop, such a message ends it in [IndexError]. *)
Lemma dispatch_unmatched fuel subjects message w w1 verb f1 ev f3 p rest :
  Py.split " " message = verb :: f1 :: ev :: f3 :: p :: rest ->
  wait_alive fuel p w = (Ok tt, w1) ->
  filter (fun x => event x = ev) subjects = [] ->
  dispatch (S fuel) subjects message w = (Raise IndexError, w1).
Proof.
  intros Hs Ha Hf.
  assert (Hne : String.eqb message "" = false).
  { apply String.eqb_neq. intros ->. simpl in Hs. discriminate. }
  cbn [dispatch]. rewrite Hne. apply bind_Raise.
  exact (process_message_unmatched _ _ _ _ _ _ _ _ _ _ _ Hs Ha Hf).
Qed.

(** *** The shape of the effects of dispatch *)


















(** ** The orchestrator *)

Lemma main_launch testname fuel w :
  main testname fuel w
  = (subjects <- launch testname ;;
     enter DISPATCH ;;
     subjects <- process_messages fuel subjects ;;
     enter SUPERVISE ;;
     wait_on_handles subjects ;;
     enter POSTCLEANUP ;;
     cleanup) w.
Proof.
  unfold main, launch, bind, ret.
  repeat match goal with
         | |- context [match ?m ?x with _ => _ end] =>
             destruct (m x) as [[?|?|] ?]
         end; reflexivity.
Qed.

Lemma enter_quiet st w : sigint w = None -> enter st w = (Ok tt, w).
Proof. intros Hs. unfold enter. rewrite Hs. now case_decide. Qed.

Lemma cleanup_result w r w' :
  cleanup w = (r, w') -> r = Ok tt \/ r = Raise OSError.
Proof.
  unfold cleanup, bind, os_path_exists, os_unlink, ret.
  repeat case_match; simplify_eq; intros [= <- _]; auto.
Qed.

(** An exception of class [Exception] that leaves [main]: the cleanup
    runs and the status is 1. *)
Lemma rreplay_Exception testname fuel w e w' :
  main testname fuel w = (Raise e, w') -> is_Exception e = true ->
  rreplay testname fuel w = (cleanup ;; sys_exit 1) w'
  /\ exit_status (rreplay testname fuel w).1 = Some 1.
Proof.
  intros Hm He.
  assert (Hr : rreplay testname fuel w = (cleanup ;; sys_exit 1) w').
  { unfold rreplay. rewrite (bind_Raise _ _ _ _ _ Hm).
    destruct e; try discriminate; now rewrite ?He. }
  split; [exact Hr |]. rewrite Hr. unfold bind.
  destruct (cleanup w') as [r w''] eqn:Hc.
  apply cleanup_result in Hc as [-> | ->]; reflexivity.
Qed.

(** C10.  After a launch that went through, a first message with five
    fields or more whose event no subject has, once its pid is seen alive:
    [process_messages] raises [IndexError], the handler for [Exception]
    runs the cleanup, and the status is 1. *)
Theorem unmatched_event_exits_1 (testname : string) (fuel : nat)
    (w w0 w1 w2 : World) (subjects : list Subject)
    (message verb f1 ev f3 p : string) (rest : list string) :
  launch testname w = (Ok subjects, w0) ->
  sigint w0 = None ->
  get_message (S fuel) RR_PIPE w0 = (Ok message, w1) ->
  Py.split " " message = verb :: f1 :: ev :: f3 :: p :: rest ->
  wait_alive fuel p w1 = (Ok tt, w2) ->
  filter (fun x => event x = ev) subjects = [] ->
  process_messages (S fuel) subjects w0 = (Raise IndexError, w2)
  /\ rreplay testname (S fuel) w = (cleanup ;; sys_exit 1) w2
  /\ exit_status (rreplay testname (S fuel) w).1 = Some 1.
Proof.
  intros Hl Hsig Hg Hs Ha Hf.
  assert (Hp : process_messages (S fuel) subjects w0 = (Raise IndexError, w2)).
  { unfold process_messages. rewrite (bind_Ok _ _ _ _ _ Hg).
    exact (dispatch_unmatched _ _ _ _ _ _ _ _ _ _ _ Hs Ha Hf). }
  split; [exact Hp |].
  apply (rreplay_Exception _ _ _ IndexError); [| reflexivity].
  rewrite main_launch. rewrite (bind_Ok _ _ _ _ _ Hl).
  rewrite (bind_Ok _ _ _ _ _ (enter_quiet DISPATCH _ Hsig)).
  now apply bind_Raise.
Qed.

(** ** The order of the subjects *)

Lemma bind_Ok_inv {A B} (m : M A) (k : A -> M B) w b w' :
  bind m k w = (Ok b, w') ->
  exists a w1, m w = (Ok a, w1) /\ k a w1 = (Ok b, w').
Proof.
  unfold bind. destruct (m w) as [[a|e|] w1]; try discriminate. eauto.
Qed.

Definition by_key (x y : Z * Subject) : Prop := x.1 <= y.1.

Lemma insert_by_key_perm x l : insert_by_key x l ≡ₚ x :: l.
Proof.
  induction l as [|y l IH]; simpl; [reflexivity |].
  destruct (x.1 <=? y.1); [reflexivity |].
  rewrite IH. apply Permutation_swap.
Qed.

Lemma insert_by_key_sorted x l :
  StronglySorted by_key l -> StronglySorted by_key (insert_by_key x l).
Proof.
  induction 1 as [|y l Hl IH Hy]; simpl.
  - repeat constructor.
  - destruct (Z.leb_spec x.1 y.1) as [Hle|Hlt].
    + constructor; [now constructor |]. constructor; [exact Hle |].
      eapply Forall_impl; [exact Hy |]. unfold by_key. intros; lia.
    + constructor; [exact IH |]. rewrite insert_by_key_perm.
      constructor; [unfold by_key; lia | exact Hy].
Qed.

Lemma sort_by_key_spec ks :
  foldr insert_by_key [] ks ≡ₚ ks
  /\ StronglySorted by_key (foldr insert_by_key [] ks).
Proof.
  induction ks as [|x ks [IHp IHs]]; simpl; [split; constructor |]. split.
  - now rewrite insert_by_key_perm, IHp.
  - now apply insert_by_key_sorted.
Qed.

Lemma sort_keys_spec l : forall w ks w',
  sort_keys l w = (Ok ks, w') ->
  w' = w /\ ks.*2 = l
  /\ Forall (fun x => Py.int (event x.2) = Some x.1) ks.
Proof.
  induction l as [|s l IH]; intros w ks w'; simpl.
  - intros [= <- <-]. repeat split; constructor.
  - intros (k & w1 & Hk & Hr)%bind_Ok_inv.
    apply bind_Ok_inv in Hr as (ks' & w2 & Hks & [= <- <-]).
    unfold _sort_by_event, py_int in Hk.
    destruct (Py.int (event s)) as [z|] eqn:Hz; [|discriminate].
    injection Hk as <- <-.
    destruct (IH _ _ _ Hks) as (-> & <- & Hall).
    repeat split. now constructor.
Qed.

Lemma sorted_keys_by_event (t : list (Z * Subject)) :
  StronglySorted by_key t ->
  Forall (fun x => Py.int (event x.2) = Some x.1) t ->
  StronglySorted by_event t.*2.
Proof.
  induction 1 as [|x t Ht IH Hx]; intros Hall; simpl; [constructor |].
  apply Forall_cons in Hall as [Hxk Hall]. constructor; [now apply IH |].
  rewrite Forall_fmap. rewrite Forall_forall in Hx, Hall |- *.
  intros y Hy. unfold by_event, event_number. simpl.
  rewrite Hxk, (Hall y Hy). simpl. now apply Hx.
Qed.

(** What [subjects.sort(key=_sort_by_event)] leaves: the same subjects,
    each with a numeric event, in ascending order of it. *)
Lemma list_sort_spec l w l' w' :
  list_sort l w = (Ok l', w') ->
  w' = w /\ l ≡ₚ l' /\ StronglySorted by_event l'
  /\ Forall (fun s => is_Some (Py.int (event s))) l'.
Proof.
  intros (ks & w1 & Hks & [= <- <-])%bind_Ok_inv.
  destruct (sort_keys_spec _ _ _ _ Hks) as (-> & <- & Hall).
  destruct (sort_by_key_spec ks) as [Hp Hs].
  rewrite <- Hp in Hall.
  split; [reflexivity |]. split; [now rewrite Hp |]. split.
  - now apply sorted_keys_by_event.
  - rewrite Forall_fmap. eapply Forall_impl; [exact Hall |].
    intros x Hx. simpl. rewrite Hx. eauto.
Qed.

Lemma parse_subjects_frame secs : forall w r w',
  parse_subjects secs w = (r, w') -> w' = w.
Proof.
  induction secs as [|i secs IH]; intros w r w'; simpl.
  - now intros [= _ <-].
  - unfold bind at 1.
    assert (Hp : forall w, exists r, parse_subject i w = (r, w)).
    { intros v. unfold parse_subject, bind, cfg_get, ret, raise.
      repeat case_match; simplify_eq; eauto. }
    destruct (Hp w) as [r1 ->]. destruct r1 as [s|e|].
    + unfold bind. destruct (parse_subjects secs w) as [[ss|e|] w1] eqn:Hs;
        apply IH in Hs as ->; now intros [= _ <-].
    + now intros [= _ <-].
    + now intros [= _ <-].
Qed.

Lemma cfg_read_frame ini_path w r w' :
  cfg_read ini_path w = (r, w') -> w' = w.
Proof.
  unfold cfg_read. repeat case_match; now intros [= _ <-].
Qed.

(** What the parser can have found when it returns. *)
Lemma cfg_read_Ok ini_path w secs w' :
  cfg_read ini_path w = (Ok secs, w') ->
  w' = w
  /\ (fs w !! ini_path = Some (File (Ini secs))
      \/ secs = [] \/ secs = [("", ∅)]).
Proof.
  unfold cfg_read.
  destruct (fs w !! ini_path) as [[|d|[t|j|l|]]|]; try discriminate.
  - destruct (Py.no_sections d); [| discriminate].
    intros [= <- <-]. auto.
  - destruct (Py.no_sections t); [| discriminate].
    intros [= <- <-]. auto.
  - destruct j as [| | | |[|x l]|]; try discriminate.
    intros [= <- <-]. auto.
  - intros [= <- <-]. auto.
Qed.

(** What [get_configuration] returns. *)
Lemma get_configuration_spec ini_path w rr_dir subjects w' :
  get_configuration ini_path w = (Ok (rr_dir, subjects), w') ->
  exists sections parsed,
    fs w !! ini_path = Some (File (Ini sections))
    /\ parse_subjects (drop 1 sections) w = (Ok parsed, w)
    /\ parsed ≡ₚ subjects
    /\ StronglySorted by_event subjects
    /\ Forall (fun s => is_Some (Py.int (event s))) subjects.
Proof.
  unfold get_configuration.
  intros (secs & w1 & Hread & Hr)%bind_Ok_inv.
  apply cfg_read_Ok in Hread as [-> Hread].
  apply bind_Ok_inv in Hr as (sec0 & w1 & Hget & Hr).
  apply bind_Ok_inv in Hr as (rr & w2 & Hrr & Hr).
  assert (Hfs : fs w !! ini_path = Some (File (Ini secs))).
  { destruct Hread as [Hfs | [-> | ->]]; [exact Hfs | discriminate |].
    injection Hget as <- _. discriminate. }
  assert (w2 = w1 /\ w1 = w) as [-> ->].
  { clear Hr. unfold getitem, cfg_get, ret, raise in *.
    repeat case_match; simplify_eq; auto. }
  clear Hget Hrr Hread.
  apply bind_Ok_inv in Hr as ([] & w1 & Hlen & Hr).
  destruct (length (drop 1 secs) =? 0)%nat; [discriminate |].
  injection Hlen as <-.
  apply bind_Ok_inv in Hr as (parsed & w1 & Hparse & Hr).
  pose proof (parse_subjects_frame _ _ _ _ Hparse) as ->.
  apply bind_Ok_inv in Hr as (sorted & w1 & Hsort & [= _ <- <-]).
  apply list_sort_spec in Hsort as (-> & Hp & Hs & Hall).
  exists secs, parsed. auto.
Qed.

Lemma store_subject_events s' ev (subjects : list Subject) :
  event s' = ev ->
  event <$> store_subject s' ev subjects = event <$> subjects.
Proof.
  intros He. unfold store_subject.
  destruct (list_find _ subjects) as [[i x]|] eqn:Hfind; [|reflexivity].
  apply list_find_Some in Hfind as (Hl & Hx & _).
  rewrite list_fmap_insert. apply list_insert_id.
  rewrite list_lookup_fmap, Hl. simpl. congruence.
Qed.

(** A message changes no subject's event and moves no subject. *)
Lemma process_message_events fuel subjects message w subjects' w' :
  process_message fuel subjects message w = (Ok subjects', w') ->
  event <$> subjects' = event <$> subjects.
Proof.
  unfold process_message. intros Hm.
  apply bind_Ok_inv in Hm as (verb & w1 & _ & Hm).
  apply bind_Ok_inv in Hm as (ev & w2 & _ & Hm).
  apply bind_Ok_inv in Hm as (p & w3 & _ & Hm).
  apply bind_Ok_inv in Hm as ([] & w4 & _ & Hm).
  apply bind_Ok_inv in Hm as (s & w5 & Hs & Hm).
  assert (He : event s = ev).
  { unfold getitem in Hs.
    destruct (filter _ subjects !! 0%nat) as [x|] eqn:Hx; [|discriminate].
    injection Hs as <- _. apply list_elem_of_lookup_2 in Hx.
    now apply list_elem_of_filter in Hx as [Hx _]. }
  destruct (String.eqb _ "INJECT").
  - apply bind_Ok_inv in Hm as (tmp & w6 & _ & Hm).
    apply bind_Ok_inv in Hm as (m & w7 & _ & Hm).
    apply bind_Ok_inv in Hm as ([] & w8 & _ & Hm).
    apply bind_Ok_inv in Hm as (h & w9 & _ & [= <- _]).
    now apply store_subject_events.
  - destruct (String.eqb _ "DONT_INJECT"); injection Hm as <- _;
      [now apply store_subject_events | reflexivity].
Qed.

Lemma dispatch_events fuel : forall subjects message w subjects' w',
  dispatch fuel subjects message w = (Ok subjects', w') ->
  event <$> subjects' = event <$> subjects.
Proof.
  induction fuel as [|fuel IH]; intros subjects message w subjects' w';
    simpl; [discriminate |].
  destruct (String.eqb message ""); [now intros [= <- _] |].
  intros (s1 & w1 & Hm & Hr)%bind_Ok_inv.
  apply bind_Ok_inv in Hr as (m1 & w2 & _ & Hr).
  apply IH in Hr. apply process_message_events in Hm. congruence.
Qed.

Lemma process_messages_events fuel subjects w subjects' w' :
  process_messages fuel subjects w = (Ok subjects', w') ->
  event <$> subjects' = event <$> subjects.
Proof.
  intros (m & w1 & _ & Hd)%bind_Ok_inv. now apply dispatch_events in Hd.
Qed.

Lemma by_event_numbers (l : list Subject) :
  StronglySorted by_event l <-> StronglySorted Z.le (event_number <$> l).
Proof.
  induction l as [|x l IH]; [split; constructor |].
  rewrite fmap_cons, !StronglySorted_cons, Forall_fmap, IH. reflexivity.
Qed.

Lemma by_event_events (l l' : list Subject) :
  event <$> l' = event <$> l ->
  StronglySorted by_event l -> StronglySorted by_event l'.
Proof.
  intros He. rewrite !by_event_numbers.
  change event_number with ((fun e => default 0 (Py.int e)) ∘ event).
  now rewrite !list_fmap_compose, He.
Qed.

(** ** Supervision *)

(** The loop over [other_procs] stops at its first element: indexing the
    list by the pid, a [str], raises [TypeError] before the kill. *)
Lemma kill_other_procs_skipped s i rest w :
  kill_other_procs s (i :: rest) w = (Raise TypeError, w).
Proof. reflexivity. Qed.

Lemma kill_other_procs_frame s l w r w' :
  kill_other_procs s l w = (r, w') ->
  w' = w /\ (r = Ok tt \/ r = Raise TypeError).
Proof. destruct l; intros [= <- <-]; auto. Qed.

(** The supervisor's output comes subject by subject, in the order of
    the list. *)
Lemma wait_on_handles_reports subjects : forall w r w',
  StronglySorted by_event subjects ->
  wait_on_handles subjects w = (r, w') ->
  exists out,
    console w' = (console w ++ out)%list
    /\ StronglySorted Z.le (omap reported out)
    /\ Forall (fun z => z ∈ event_number <$> subjects) (omap reported out).
Proof.
  induction subjects as [|s rest IH]; intros w r w' Hs; simpl.
  - intros [= _ <-]. exists []. rewrite app_nil_r. repeat constructor.
  - apply StronglySorted_cons in Hs as [Hle Hs].
    assert (Hfirst : forall z, z ∈ event_number <$> rest -> event_number s <= z).
    { intros z (y & -> & Hy)%list_elem_of_fmap.
      rewrite Forall_forall in Hle. now apply Hle. }
    assert (Hcons : forall out, StronglySorted Z.le out ->
              Forall (fun z => z ∈ event_number <$> rest) out ->
              StronglySorted Z.le (event_number s :: out)
              /\ Forall (fun z => z ∈ event_number s :: (event_number <$> rest))
                   (event_number s :: out)).
    { intros out Ho Hin. split.
      - constructor; [exact Ho |]. eapply Forall_impl; [exact Hin |]. auto.
      - constructor; [left |]. eapply Forall_impl; [exact Hin |].
        intros; now right. }
    assert (Hweak : forall out,
              Forall (fun z => z ∈ event_number <$> rest) out ->
              Forall (fun z => z ∈ event_number s :: (event_number <$> rest)) out).
    { intros out Hin. eapply Forall_impl; [exact Hin |]. intros; now right. }
    unfold bind at 1.
    destruct (handle s) as [h|].
    + unfold Popen_wait. unfold bind at 1.
      destruct (kill_other_procs s (other_procs s) _) as [rk wk] eqn:Hk.
      apply kill_other_procs_frame in Hk as [-> [-> | ->]].
      2: { intros [= _ <-]. exists []. simpl. rewrite app_nil_r.
           repeat constructor. }
      unfold bind at 1.
      destruct (negb _); unfold print, ret; intros Hr;
        apply IH in Hr as (out & Hc & Ho & Hin); try assumption; simpl in Hc.
      * exists (MsgInjectorFailed (event s) (rec_pid s) :: out).
        rewrite Hc, <- app_assoc. split; [reflexivity |].
        now apply Hcons.
      * exists out. auto.
    + unfold bind at 1. unfold print at 1. unfold ret at 1. unfold bind at 1.
      destruct (kill_other_procs s (other_procs s) _) as [rk wk] eqn:Hk.
      apply kill_other_procs_frame in Hk as [-> [-> | ->]].
      2: { intros [= _ <-]. exists [MsgNoHandle s]. simpl.
           split; [reflexivity |]. split; repeat constructor. }
      unfold bind at 1. simpl negb. cbv iota. unfold print.
      intros Hr. apply IH in Hr as (out & Hc & Ho & Hin); try assumption.
      simpl in Hc.
      exists (MsgNoHandle s :: MsgInjectorFailed (event s) (rec_pid s) :: out).
      rewrite Hc, <- !app_assoc. split; [reflexivity |].
      change (omap reported
                (MsgNoHandle s :: MsgInjectorFailed (event s) (rec_pid s)
                 :: out))
        with (event_number s :: event_number s :: omap reported out).
      destruct (Hcons _ Ho Hin) as [Ho1 Hin1]. split.
      * constructor; [exact Ho1 |]. constructor; [lia |].
        now apply StronglySorted_cons in Ho1 as [? _].
      * constructor; [left | exact Hin1].
Qed.

(** What the supervisor does, exactly: it goes through the subjects in
    the order of the list up to the first one with a skipped pid, waits
    for each injector and prints each subject's lines, and ends normally
    when no subject has a skipped pid, in [TypeError] otherwise. *)
Lemma wait_on_handles_exact subjects : forall w r w',
  wait_on_handles subjects w = (r, w') ->
  effects w'
  = (effects w ++ (Waited <$> omap handle (supervised subjects)))%list
  /\ console w'
     = (console w
        ++ concat (supervisor_lines (statuses w) <$> supervised subjects))%list
  /\ statuses w' = statuses w
  /\ (Forall (fun s => other_procs s = []) subjects ->
      r = Ok tt /\ supervised subjects = subjects)
  /\ (Exists (fun s => other_procs s <> []) subjects -> r = Raise TypeError).
Proof.
  induction subjects as [|s rest IH]; intros w r w'.
  - simpl. intros [= <- <-]. rewrite !app_nil_r.
    repeat split; auto. now intros ?%Exists_nil.
  - simpl. unfold supervisor_lines at 1, supervisor_report.
    destruct (other_procs s) as [|i l] eqn:Ho.
    + change (kill_other_procs s []) with (ret tt).
      assert (Hrest : forall v,
                wait_on_handles rest v = (r, w') ->
                (Forall (fun s => other_procs s = []) (s :: rest) ->
                 r = Ok tt /\ s :: supervised rest = s :: rest)
                /\ (Exists (fun s => other_procs s <> []) (s :: rest) ->
                    r = Raise TypeError)).
      { intros v Hv. apply IH in Hv as (_ & _ & _ & Hall & Hex). split.
        - intros [_ Hr]%Forall_cons. destruct (Hall Hr) as [-> ->]. auto.
        - intros [Hs | Hr]%Exists_cons; [congruence | auto]. }
      destruct (handle s) as [h|].
      * unfold bind at 1, Popen_wait. rewrite bind_ret.
        destruct (default 0 (statuses w !! child h) =? 0) eqn:Hst;
          simpl negb; cbv iota.
        -- rewrite bind_ret. intros Hr. destruct (Hrest _ Hr) as [Hall Hex].
           apply IH in Hr as (He & Hc & Hs & _). simpl in *.
           rewrite He, Hc, <- app_assoc. auto.
        -- unfold bind at 1, print. intros Hr.
           destruct (Hrest _ Hr) as [Hall Hex].
           apply IH in Hr as (He & Hc & Hs & _). simpl in *.
           rewrite He, Hc, <- !app_assoc. auto.
      * unfold bind at 1. unfold bind at 1, print. unfold ret at 1.
        rewrite bind_ret. simpl negb. cbv iota. unfold bind at 1.
        intros Hr. destruct (Hrest _ Hr) as [Hall Hex].
        apply IH in Hr as (He & Hc & Hs & _). simpl in *.
        rewrite He, Hc, <- !app_assoc. auto.
    + assert (Hend : (Forall (fun s => other_procs s = []) (s :: rest) ->
                      Raise TypeError = Ok tt /\ [s] = s :: rest)
                     /\ (Exists (fun s => other_procs s <> []) (s :: rest) ->
                         @Raise unit TypeError = Raise TypeError)).
      { split; [| reflexivity]. intros [Hs _]%Forall_cons. congruence. }
      destruct (handle s) as [h|].
      * unfold bind at 1, Popen_wait. unfold bind at 1.
        rewrite kill_other_procs_skipped. intros [= <- <-]. simpl.
        rewrite app_nil_r. destruct Hend. auto.
      * unfold bind at 1. unfold bind at 1, print. unfold ret at 1.
        unfold bind at 1. rewrite kill_other_procs_skipped.
        intros [= <- <-]. simpl. rewrite app_nil_r. destruct Hend. auto.
Qed.

Lemma supervised_prefix subjects : supervised subjects `prefix_of` subjects.
Proof.
  induction subjects as [|s rest IH]; [reflexivity |]. simpl.
  destruct (other_procs s).
  - now apply prefix_cons.
  - apply (prefix_cons s [] rest), prefix_nil.
Qed.

(** Every subject the supervisor gets to leaves its mark: a wait for
    its injector, or the line that says it has none. *)
Lemma supervised_marks sts (l : list Subject) :
  Forall (fun s => match handle s with
                   | Some h => Waited h ∈ Waited <$> omap handle l
                   | None => MsgNoHandle s
                             ∈ concat (supervisor_lines sts <$> l)
                   end) l.
Proof.
  induction l as [|s l IH]; [constructor |]. constructor.
  - destruct (handle s) as [h|] eqn:Hh; simpl.
    + rewrite Hh. left.
    + unfold supervisor_lines at 1, supervisor_report. rewrite Hh.
      destruct (other_procs s); left.
  - eapply Forall_impl; [exact IH |]. intros x. simpl.
    destruct (handle x) as [h|].
    + intros Hx. destruct (handle s); [right |]; exact Hx.
    + intros Hx. apply elem_of_app. now right.
Qed.

Lemma NoDup_fmap_eq {A B} (f : A -> B) (l : list A) x y :
  NoDup (f <$> l) -> x ∈ l -> y ∈ l -> f x = f y -> x = y.
Proof.
  induction l as [|a l IH]; [now intros _ ?%elem_of_nil |].
  rewrite fmap_cons, NoDup_cons.
  intros [Ha Hl] [->|Hx]%elem_of_cons [->|Hy]%elem_of_cons Hf; auto.
  - exfalso. apply Ha. rewrite Hf. now apply list_elem_of_fmap_2.
  - exfalso. apply Ha. rewrite <- Hf. now apply list_elem_of_fmap_2.
Qed.

(** C4.  The subjects that [get_configuration] returns are those of the
    configuration, each with a numeric event, in ascending order of that
    number; with distinct events that order is the only ascending
    arrangement of them, whatever order the configuration lists them in.
    The dispatch loop keeps every subject's event and place.  The
    supervisor then goes through the subjects in that order, up to the
    first one with a skipped pid: it waits for the injectors of exactly
    these subjects, in their order, and prints exactly their lines, in
    their order, so that every one of them is waited for or reported as
    having no handle, and the reports come out in ascending order of
    event.  With no skipped pid it goes through the whole list and
    returns; with one it ends in [TypeError]. *)
Theorem subjects_sorted_by_event (ini_path : string) (w w0 : World)
    (rr_dir : string) (subjects : list Subject) :
  get_configuration ini_path w = (Ok (rr_dir, subjects), w0) ->
  (exists sections parsed,
      fs w !! ini_path = Some (File (Ini sections))
      /\ parse_subjects (drop 1 sections) w = (Ok parsed, w)
      /\ parsed ≡ₚ subjects)
  /\ Forall (fun s => is_Some (Py.int (event s))) subjects
  /\ Sorted Z.le (event_number <$> subjects)
  /\ (forall subjects2,
        subjects2 ≡ₚ subjects ->
        Sorted Z.le (event_number <$> subjects2) ->
        NoDup (event_number <$> subjects) ->
        subjects2 = subjects)
  /\ (forall fuel w1 subjects' w2 r w3,
        process_messages fuel subjects w1 = (Ok subjects', w2) ->
        wait_on_handles subjects' w2 = (r, w3) ->
        let seen := supervised subjects' in
        let out := concat (supervisor_lines (statuses w2) <$> seen) in
        event <$> subjects' = event <$> subjects
        /\ seen `prefix_of` subjects'
        /\ Sorted Z.le (event_number <$> seen)
        /\ effects w3 = (effects w2 ++ (Waited <$> omap handle seen))%list
        /\ console w3 = (console w2 ++ out)%list
        /\ Sorted Z.le (omap reported out)
        /\ Forall (fun s => match handle s with
                            | Some h => Waited h ∈ effects w3
                            | None => MsgNoHandle s ∈ console w3
                            end) seen
        /\ (Forall (fun s => other_procs s = []) subjects' ->
            r = Ok tt /\ seen = subjects')
        /\ (Exists (fun s => other_procs s <> []) subjects' ->
            r = Raise TypeError)).
Proof.
  intros Hcfg.
  apply get_configuration_spec in Hcfg
    as (sections & parsed & Hfs & Hparse & Hperm & Hsorted & Hnum).
  split; [eauto |]. split; [exact Hnum |]. split; [| split].
  - apply StronglySorted_Sorted. now apply by_event_numbers.
  - intros subjects2 Hp Hs2 Hnd.
    apply (StronglySorted_unique_strong by_event); try assumption.
    + intros x1 x2 Hx1 Hx2 H12 H21. rewrite Hp in Hx1.
      apply (NoDup_fmap_eq event_number subjects); try assumption.
      unfold by_event in *. lia.
    + apply by_event_numbers.
      apply Sorted_StronglySorted; [apply _ | exact Hs2].
  - intros fuel w1 subjects' w2 r w3 Hpm Hwait seen out.
    apply process_messages_events in Hpm.
    assert (Hs' : StronglySorted by_event subjects')
      by now apply (by_event_events subjects).
    destruct (wait_on_handles_exact _ _ _ _ Hwait)
      as (He & Hc & _ & Hall & Hex).
    fold seen in He, Hc, Hall. fold out in Hc.
    split; [exact Hpm |]. split; [apply supervised_prefix |].
    split.
    { apply StronglySorted_Sorted, by_event_numbers.
      destruct (supervised_prefix subjects') as [k Hk]. fold seen in Hk.
      rewrite Hk in Hs'. now apply StronglySorted_app_1_l in Hs'. }
    split; [exact He |]. split; [exact Hc |]. split.
    { apply wait_on_handles_reports in Hwait as (out' & Hc' & Ho & _);
        [| exact Hs'].
      rewrite Hc in Hc'. apply app_inv_head in Hc' as ->.
      now apply StronglySorted_Sorted. }
    split; [| split; [exact Hall | exact Hex]].
    eapply Forall_impl; [apply (supervised_marks (statuses w2) seen) |].
    intros x. simpl. fold out. rewrite He, Hc.
    destruct (handle x); intros Hx; apply elem_of_app; now right.
Qed.

(** ** A configuration without subjects *)

Lemma get_configuration_empty ini_path sec rr_dir w :
  fs w !! ini_path = Some (File (Ini [sec])) ->
  sec.2 !! "rr_dir" = Some rr_dir ->
  get_configuration ini_path w
  = (Raise (SystemExit 0), with_console (console w ++ [MsgNoOpportunities]) w).
Proof.
  intros Hfs Hrr. unfold get_configuration, bind, cfg_read. rewrite Hfs.
  unfold getitem, cfg_get. simpl. now rewrite Hrr.
Qed.

(** C5.  Without an interrupt, with the test directory in place and a
    configuration whose only section is the one that names the replay
    directory: the program prints that there is nothing to simulate and
    ends with status 0, straight out of [get_configuration]; nothing has
    been spawned, the replay least of all. *)
Theorem no_subjects_exits_0 (testname : string) (fuel : nat) (w : World)
    (sec : string * gmap string string) (rr_dir : string) :
  sigint w = None ->
  fs w !! PROC_FILE <> Some Dir ->
  fs w !! RR_PIPE <> Some Dir ->
  let w1 := with_fs (delete RR_PIPE (delete PROC_FILE (fs w))) w in
  let test_dir := DEFAULT_CONFIG_PATH +:+ testname in
  is_Some (fs w1 !! test_dir) ->
  fs w1 !! (test_dir +:+ "/" +:+ "config.ini") = Some (File (Ini [sec])) ->
  sec.2 !! "rr_dir" = Some rr_dir ->
  let w2 := with_console (console w ++ [MsgNoOpportunities]) w1 in
  get_configuration (test_dir +:+ "/" +:+ "config.ini") w1
  = (Raise (SystemExit 0), w2)
  /\ rreplay testname fuel w = (Raise (SystemExit 0), w2)
  /\ exit_status (rreplay testname fuel w).1 = Some 0
  /\ effects w2 = effects w.
Proof.
  intros Hsig Hp Hr w1 test_dir [n Hdir] Hini Hrr w2.
  assert (Hcfg : get_configuration (test_dir +:+ "/" +:+ "config.ini") w1
                 = (Raise (SystemExit 0), w2)).
  { now apply (get_configuration_empty _ sec rr_dir). }
  assert (Hmain : main testname fuel w = (Raise (SystemExit 0), w2)).
  { unfold main.
    rewrite (bind_Ok _ _ _ _ _ (enter_quiet PRECLEANUP _ Hsig)).
    rewrite (bind_Ok _ _ _ _ _ (cleanup_runs _ Hp Hr)). fold w1.
    rewrite (bind_Ok _ _ _ tt w1) by now apply enter_quiet.
    fold test_dir. unfold bind at 1, os_path_exists. rewrite Hdir.
    rewrite bind_ret. now apply bind_Raise. }
  assert (Hrun : rreplay testname fuel w = (Raise (SystemExit 0), w2)).
  { unfold rreplay. now rewrite (bind_Raise _ _ _ _ _ Hmain). }
  split; [exact Hcfg |]. split; [exact Hrun |]. split; [now rewrite Hrun |].
  reflexivity.
Qed.

(** ** What supervision does to the skipped processes *)

(** The supervisor never gets to [os.kill]: whatever the subjects, it
    leaves the kills among the effects as they were. *)
Lemma supervisor_never_kills subjects : forall w r w',
  wait_on_handles subjects w = (r, w') ->
  List.filter is_kill (effects w') = List.filter is_kill (effects w).
Proof.
  induction subjects as [|s rest IH]; intros w r w'; simpl.
  - now intros [= _ <-].
  - assert (Hstep : forall v v' rv,
              (kill_other_procs s (other_procs s) ;;
               (if negb (rv =? 0)
                then print (MsgInjectorFailed (event s) (rec_pid s))
                else ret tt) ;;
               wait_on_handles rest) v = (r, v') ->
              List.filter is_kill (effects v')
              = List.filter is_kill (effects v)).
    { intros v v' rv. unfold bind at 1.
      destruct (kill_other_procs s (other_procs s) v) as [rk vk] eqn:Hk.
      apply kill_other_procs_frame in Hk as [-> [-> | ->]];
        [| now intros [= _ <-]].
      unfold bind at 1. destruct (negb _); unfold print, ret;
        intros Hr; now apply IH in Hr. }
    unfold bind at 1. destruct (handle s) as [h|].
    + unfold Popen_wait. intros Hr. apply Hstep in Hr. rewrite Hr. simpl.
      rewrite List.filter_app. simpl. now rewrite app_nil_r.
    + unfold bind at 1, print, ret. intros Hr. now apply Hstep in Hr.
Qed.

(** At the first subject with a skipped pid the supervision ends in
    [TypeError], with no signal sent. *)
Lemma supervision_stops_at_skipped s rest w :
  other_procs s <> [] ->
  exists w1,
    wait_on_handles (s :: rest) w = (Raise TypeError, w1)
    /\ List.filter is_kill (effects w1) = List.filter is_kill (effects w).
Proof.
  intros Hne.
  destruct (wait_on_handles (s :: rest) w) as [r w1] eqn:Hw.
  exists w1. split; [| now apply supervisor_never_kills in Hw].
  f_equal. revert Hw. simpl. unfold bind at 1.
  destruct (other_procs s) as [|i l] eqn:Ho; [contradiction |].
  destruct (handle s) as [h|].
  - unfold Popen_wait. unfold bind at 1.
    rewrite kill_other_procs_skipped. now intros [= <- _].
  - unfold bind at 1, print, ret. unfold bind at 1.
    rewrite kill_other_procs_skipped. now intros [= <- _].
Qed.

(** ** The interrupt *)

Lemma rreplay_interrupt testname fuel w w' :
  main testname fuel w = (Raise KeyboardInterrupt, w') ->
  rreplay testname fuel w
  = (c <- read_file "proc.out" ;;
     print (MsgDump c) ;;
     cleanup ;;
     sys_exit 0) w'.
Proof. intros Hm. unfold rreplay. now rewrite (bind_Raise _ _ _ _ _ Hm). Qed.

(** With the log in place the handler prints it, cleans up and exits
    with 0. *)
Lemma interrupt_with_log testname fuel w w' c :
  main testname fuel w = (Raise KeyboardInterrupt, w') ->
  fs w' !! "proc.out" = Some (File c) ->
  fs w' !! PROC_FILE <> Some Dir -> fs w' !! RR_PIPE <> Some Dir ->
  rreplay testname fuel w
  = (Raise (SystemExit 0),
     with_fs (delete RR_PIPE (delete PROC_FILE (fs w')))
       (with_console (console w' ++ [MsgDump c]) w')).
Proof.
  intros Hm Hlog Hp Hr. rewrite (rreplay_interrupt _ _ _ _ Hm).
  unfold bind at 1, read_file. rewrite Hlog.
  unfold bind at 1, print.
  erewrite bind_Ok by (apply cleanup_runs; assumption). reflexivity.
Qed.

(** Without it the handler's [open] fails, and that exception leaves the
    program: no cleanup, no [sys.exit(0)]. *)
Lemma interrupt_without_log testname fuel w w' :
  main testname fuel w = (Raise KeyboardInterrupt, w') ->
  fs w' !! "proc.out" = None ->
  rreplay testname fuel w = (Raise IOError, w').
Proof.
  intros Hm Hlog. rewrite (rreplay_interrupt _ _ _ _ Hm).
  unfold bind at 1, read_file. now rewrite Hlog.
Qed.

(** ** More on the messages *)

Lemma split_sep sep a b :
  no_char sep a = true ->
  Py.split sep (a +:+ String sep b) = a :: Py.split sep b.
Proof.
  induction a as [|x a IH]; intros Ha.
  - rewrite append_nil_l. simpl. now rewrite Ascii.eqb_refl.
  - simpl in Ha. apply andb_true_iff in Ha as [Hx Ha].
    apply negb_true_iff in Hx. rewrite append_cons. simpl.
    rewrite Hx. now rewrite (IH Ha).
Qed.

Lemma split_none sep a : no_char sep a = true -> Py.split sep a = [a].
Proof.
  induction a as [|x a IH]; intros Ha; [reflexivity |].
  simpl in Ha. apply andb_true_iff in Ha as [Hx Ha].
  apply negb_true_iff in Hx. simpl. rewrite Hx. now rewrite (IH Ha).
Qed.

Lemma no_char_app c a b :
  no_char c a = true -> no_char c b = true -> no_char c (a +:+ b) = true.
Proof.
  intros Ha Hb. induction a as [|x a IH]; [exact Hb |].
  rewrite append_cons. simpl in *.
  apply andb_true_iff in Ha as [Hx Ha]. rewrite Hx. now apply IH.
Qed.

Lemma no_space_no_blank s : no_space s = true -> no_char " " s = true.
Proof.
  induction s as [|x s IH]; [reflexivity |]. simpl.
  intros [Hx Hs]%andb_true_iff. rewrite (IH Hs), andb_true_r.
  destruct (Ascii.eqb_spec x " ") as [->|]; [discriminate | reflexivity].
Qed.

Lemma no_space_snoc s c :
  no_space s = true -> Py.is_space c = false ->
  no_space (s +:+ String c "") = true.
Proof.
  intros Hs Hc. induction s as [|x s IH].
  - rewrite append_nil_l. simpl. now rewrite Hc.
  - rewrite append_cons. simpl in *.
    apply andb_true_iff in Hs as [Hx Hs]. rewrite Hx. now apply IH.
Qed.

Lemma strip_no_space s : no_space s = true -> Py.strip s = s.
Proof.
  intros Hs. unfold Py.strip.
  assert (Hl : Py.lstrip s = s).
  { destruct s as [|x s]; [reflexivity |]. simpl in *.
    apply andb_true_iff in Hs as [Hx _]. apply negb_true_iff in Hx.
    now rewrite Hx. }
  rewrite Hl. clear Hl. induction s as [|x s IH]; [reflexivity |].
  simpl in *. apply andb_true_iff in Hs as [Hx Hs].
  apply negb_true_iff in Hx. rewrite (IH Hs).
  destruct s; [now rewrite Hx | reflexivity].
Qed.

Lemma drop_last_snoc a c : Py.drop_last (a +:+ String c "") = a.
Proof.
  induction a as [|x a IH]; [reflexivity |]. rewrite append_cons.
  pose proof (snoc_not_empty a c) as Hne. simpl.
  destruct (a +:+ String c "") as [|y t]; [contradiction |].
  now rewrite IH.
Qed.

(** X1.  The positional parse gets back the fields of a message in the
    documented layout: field 0 without its colon is the verb, field 2 the
    event and field 4 the pid, provided none of them contains a blank (the
    verb no whitespace at all).  The last field keeps the line
    terminator. *)
Theorem message_fields (verb ev p rp : string) :
  no_space verb = true -> no_char " " ev = true ->
  no_char " " p = true -> no_char " " rp = true ->
  Py.split " " (format_message verb ev p rp)
  = [verb +:+ ":"; "EVENT:"; ev; "PID:"; p; "REC_PID:";
     rp +:+ String Py.LF ""]
  /\ Py.drop_last (Py.strip (verb +:+ ":")) = verb.
Proof.
  intros Hv He Hp Hr. split.
  - unfold format_message.
    change (Py.split " "
              (verb +:+ String ":" (String " " ("EVENT:" +:+ String " "
                (ev +:+ String " " ("PID:" +:+ String " "
                  (p +:+ String " " ("REC_PID:" +:+ String " "
                    (rp +:+ String Py.LF "")))))))) = 
            [verb +:+ ":"; "EVENT:"; ev; "PID:"; p; "REC_PID:";
             rp +:+ String Py.LF ""]).
    rewrite <- (append_snoc verb ":").
    rewrite split_sep
      by (apply no_char_app; [now apply no_space_no_blank | reflexivity]).
    rewrite (split_sep " " "EVENT:") by reflexivity.
    rewrite (split_sep " " ev) by exact He.
    rewrite (split_sep " " "PID:") by reflexivity.
    rewrite (split_sep " " p) by exact Hp.
    rewrite (split_sep " " "REC_PID:") by reflexivity.
    rewrite split_none by (apply no_char_app; [exact Hr | reflexivity]).
    reflexivity.
  - rewrite strip_no_space by (now apply no_space_snoc).
    apply drop_last_snoc.
Qed.

(** X2.  A message with fewer than five blank-separated fields ends the
    loop body in [IndexError] before anything is waited for or done: the
    world is as it was. *)
Theorem short_message_raises (fuel : nat) (subjects : list Subject)
    (message : string) (w : World) :
  (length (Py.split " " message) <= 4)%nat ->
  process_message fuel subjects message w = (Raise IndexError, w).
Proof.
  intros Hlen. unfold process_message.
  destruct (Py.split " " message) as [|a [|b [|c [|d [|e l]]]]];
    try reflexivity.
  simpl in Hlen. lia.
Qed.

(** X3.  A message whose verb is neither INJECT nor DONT_INJECT is still
    waited for and still needs a subject with its event, and then changes
    nothing: the subjects are returned as they were and no effect is
    added. *)
Theorem other_verb_changes_nothing (fuel : nat) (subjects : list Subject)
    (message : string) (w w1 : World) (verb f1 ev f3 p : string)
    (rest : list string) (s : Subject) (others : list Subject) :
  Py.split " " message = verb :: f1 :: ev :: f3 :: p :: rest ->
  Py.drop_last (Py.strip verb) <> "INJECT" ->
  Py.drop_last (Py.strip verb) <> "DONT_INJECT" ->
  wait_alive fuel p w = (Ok tt, w1) ->
  filter (fun x => event x = ev) subjects = s :: others ->
  process_message fuel subjects message w = (Ok subjects, w1)
  /\ effects w1 = effects w.
Proof.
  intros Hs Hi Hd Ha Hf. split; [| now apply wait_alive_frame in Ha].
  rewrite (process_message_parsed _ _ _ _ _ _ _ _ _ _ Hs).
  rewrite (bind_Ok _ _ _ _ _ Ha). rewrite Hf.
  change (getitem (s :: others) 0) with (ret s). rewrite bind_ret.
  apply String.eqb_neq in Hi, Hd. now rewrite Hi, Hd.
Qed.

(** X4.  An INJECT message for a subject whose state file does not
    exist: [IOError] from the first [open], before the subject or any file
    is touched; nothing is written and no injector is spawned. *)
Theorem inject_without_state_file (fuel : nat) (subjects : list Subject)
    (message : string) (w w1 : World) (verb f1 ev f3 p : string)
    (rest : list string) (s : Subject) (others : list Subject) :
  Py.split " " message = verb :: f1 :: ev :: f3 :: p :: rest ->
  Py.drop_last (Py.strip verb) = "INJECT" ->
  wait_alive fuel p w = (Ok tt, w1) ->
  filter (fun x => event x = ev) subjects = s :: others ->
  fs w1 !! injected_state_file s = None ->
  process_message fuel subjects message w = (Raise IOError, w1)
  /\ effects w1 = effects w /\ fs w1 = fs w.
Proof.
  intros Hs Hv Ha Hf Hfile.
  split; [| now apply wait_alive_frame in Ha as (? & ? & _)].
  rewrite (process_message_parsed _ _ _ _ _ _ _ _ _ _ Hs).
  rewrite (bind_Ok _ _ _ _ _ Ha). rewrite Hf, Hv.
  change (getitem (s :: others) 0) with (ret s). rewrite bind_ret.
  change (String.eqb "INJECT" "INJECT") with true. cbv iota.
  apply bind_Raise. unfold json_load, bind, read_file. now rewrite Hfile.
Qed.

(** X5.  An INJECT message for a subject that already has a handle (a
    second injection for the same event), its strings being such as json
    can encode: the state file is opened for writing and so emptied,
    [json.dump] fails with [TypeError] on the handle, the document that
    was there is lost and no second injector is spawned. *)
Theorem second_inject_tears_state_file (fuel : nat)
    (subjects : list Subject) (message : string) (w w1 : World)
    (verb f1 ev f3 p : string) (rest : list string) (s : Subject)
    (others : list Subject) (h0 : Handle) (m : gmap string json) :
  Py.split " " message = verb :: f1 :: ev :: f3 :: p :: rest ->
  Py.drop_last (Py.strip verb) = "INJECT" ->
  wait_alive fuel p w = (Ok tt, w1) ->
  filter (fun x => event x = ev) subjects = s :: others ->
  handle s = Some h0 ->
  forallb Py.is_utf8 (subject_strings (set_pid p s)) = true ->
  fs w1 !! injected_state_file s = Some (File (Document (JObj m))) ->
  exists w2,
    process_message fuel subjects message w = (Raise TypeError, w2)
    /\ fs w2 !! injected_state_file s = Some (File Torn)
    /\ effects w2 = effects w.
Proof.
  intros Hs Hv Ha Hf Hh _ Hfile. eexists. split; [| split].
  - rewrite (process_message_parsed _ _ _ _ _ _ _ _ _ _ Hs).
    rewrite (bind_Ok _ _ _ _ _ Ha). rewrite Hf, Hv.
    change (getitem (s :: others) 0) with (ret s). rewrite bind_ret.
    change (String.eqb "INJECT" "INJECT") with true. cbv iota.
    rewrite (bind_Ok _ _ _ _ _ (json_load_document _ _ _ Hfile)).
    change (as_dict (JObj m)) with (ret m). rewrite bind_ret.
    apply bind_Raise. unfold json_dump_config, bind, open_w.
    rewrite Hfile. unfold subject_json. simpl. rewrite Hh. reflexivity.
  - simpl. apply lookup_insert_eq.
  - simpl. now apply wait_alive_frame in Ha as (_ & ? & _).
Qed.

(** *** Subjects that share an event *)

Lemma store_subject_elsewhere s' ev (subjects : list Subject) j :
  (forall x, list_find (fun x => event x = ev) subjects <> Some (j, x)) ->
  store_subject s' ev subjects !! j = subjects !! j.
Proof.
  intros Hj. unfold store_subject.
  destruct (list_find _ subjects) as [[i x]|] eqn:Hfind; [|reflexivity].
  apply list_lookup_insert_ne. intros ->. now apply (Hj x).
Qed.

(** What a message can make of the list: nothing, or a new record in the
    place of the first subject with the message's event. *)
Lemma process_message_shape fuel subjects message w subjects' w' :
  process_message fuel subjects message w = (Ok subjects', w') ->
  subjects' = subjects
  \/ exists s' ev, subjects' = store_subject s' ev subjects.
Proof.
  unfold process_message. intros Hm.
  apply bind_Ok_inv in Hm as (verb & w1 & _ & Hm).
  apply bind_Ok_inv in Hm as (ev & w2 & _ & Hm).
  apply bind_Ok_inv in Hm as (p & w3 & _ & Hm).
  apply bind_Ok_inv in Hm as ([] & w4 & _ & Hm).
  apply bind_Ok_inv in Hm as (s & w5 & _ & Hm).
  destruct (String.eqb _ "INJECT").
  - apply bind_Ok_inv in Hm as (tmp & w6 & _ & Hm).
    apply bind_Ok_inv in Hm as (m & w7 & _ & Hm).
    apply bind_Ok_inv in Hm as ([] & w8 & _ & Hm).
    apply bind_Ok_inv in Hm as (h & w9 & _ & [= <- _]). eauto.
  - destruct (String.eqb _ "DONT_INJECT"); injection Hm as <- _; eauto.
Qed.

Lemma process_message_shadowed fuel subjects message w subjects' w' i j :
  process_message fuel subjects message w = (Ok subjects', w') ->
  (i < j)%nat -> is_Some (subjects !! j) ->
  (event <$> subjects) !! i = (event <$> subjects) !! j ->
  subjects' !! j = subjects !! j.
Proof.
  intros Hm Hij [sj Hj] He.
  apply process_message_shape in Hm as [-> | (s' & ev & ->)];
    [reflexivity |].
  apply store_subject_elsewhere. intros x Hfind.
  apply list_find_Some in Hfind as (Hx & Hev & Hmin).
  rewrite !list_lookup_fmap, Hx in He. simpl in He.
  destruct (subjects !! i) as [y|] eqn:Hy; [|discriminate].
  simpl in He. injection He as He. apply (Hmin i y Hy Hij). congruence.
Qed.

Lemma dispatch_shadowed fuel : forall subjects message w subjects' w' i j,
  dispatch fuel subjects message w = (Ok subjects', w') ->
  (i < j)%nat -> is_Some (subjects !! j) ->
  (event <$> subjects) !! i = (event <$> subjects) !! j ->
  subjects' !! j = subjects !! j.
Proof.
  induction fuel as [|fuel IH];
    intros subjects message w subjects' w' i j; simpl; [discriminate |].
  destruct (String.eqb message ""); [now intros [= <- _] |].
  intros (s1 & w1 & Hm & Hr)%bind_Ok_inv Hij Hj He.
  apply bind_Ok_inv in Hr as (m1 & w2 & _ & Hr).
  pose proof (process_message_events _ _ _ _ _ _ Hm) as Hev.
  pose proof (process_message_shadowed _ _ _ _ _ _ _ _ Hm Hij Hj He) as H1.
  rewrite <- H1. apply (IH _ _ _ _ _ i j Hr Hij).
  - now rewrite H1.
  - now rewrite Hev.
Qed.

(** X6.  Of several subjects with the same event only the first is ever
    looked up: whatever the messages, a subject that has an earlier
    subject with its event before it in the list comes out of
    [process_messages] exactly as it went in, so without pid and
    handle. *)
Theorem shadowed_subject_untouched (fuel : nat) (subjects : list Subject)
    (w : World) (subjects' : list Subject) (w' : World) (i j : nat) :
  process_messages fuel subjects w = (Ok subjects', w') ->
  (i < j)%nat ->
  is_Some (subjects !! j) ->
  (event <$> subjects) !! i = (event <$> subjects) !! j ->
  subjects' !! j = subjects !! j.
Proof.
  intros (m & w1 & _ & Hd)%bind_Ok_inv Hij Hj He.
  now apply (dispatch_shadowed _ _ _ _ _ _ i j Hd).
Qed.

(** ** The launch of the replay *)

Lemma append_assoc (a b c : string) : (a +:+ b) +:+ c = a +:+ (b +:+ c).
Proof.
  induction a as [|x a IH]; [reflexivity |]. now rewrite !append_cons, IH.
Qed.

Lemma events_str_from acc (l : list Subject) :
  foldl (fun acc i => acc +:+ rec_pid i +:+ ":" +:+ event i +:+ ",") acc l
  = acc +:+ events_str l.
Proof.
  unfold events_str. revert acc.
  induction l as [|s l IH]; intros acc; simpl.
  - now rewrite append_empty_r.
  - rewrite IH. rewrite (IH ("" +:+ _)). rewrite append_nil_l.
    now rewrite append_assoc.
Qed.

(** X7.  The event filter handed to rr is the concatenation, in the
    order of the subjects, of one [rec_pid:event,] per subject; so the
    filter of a list in two parts is the two filters put together, and the
    empty list gives the empty string. *)
Theorem events_str_concat (s : Subject) (l l1 l2 : list Subject) :
  events_str (s :: l) = event_filter s +:+ events_str l
  /\ events_str (l1 ++ l2) = events_str l1 +:+ events_str l2.
Proof.
  split.
  - unfold events_str at 1. simpl. rewrite events_str_from.
    now rewrite append_nil_l.
  - unfold events_str at 1. rewrite foldl_app.
    fold (events_str l1). apply events_str_from.
Qed.

(** X8.  With rr installed and the log path free or taken by a regular
    file: [execute_rr] empties or creates the log, spawns exactly
    [rr replay -a -n <events_str> <rr_dir>] and returns without waiting
    for it. *)
Theorem execute_rr_launches (rr_dir : string) (subjects : list Subject)
    (w : World) (files : list (string * Node)) :
  fs w !! PROC_FILE <> Some Dir ->
  (forall d, fs w !! PROC_FILE <> Some (Fifo d)) ->
  programs w !! "rr" = Some files ->
  exists w',
    execute_rr rr_dir subjects w = (Ok tt, w')
    /\ effects w'
       = (effects w
          ++ [Spawned ["rr"; "replay"; "-a"; "-n"; events_str subjects;
                       rr_dir]])%list
    /\ fs w'
       = foldr (fun pn m => <[pn.1 := pn.2]> m)
           (<[PROC_FILE := File (Text "")]> (fs w)) files
    /\ console w' = console w.
Proof.
  intros Hd Hf Hp. eexists. split.
  - unfold execute_rr, bind, open_w, Popen.
    destruct (fs w !! PROC_FILE) as [[|d|c]|] eqn:E;
      [congruence | now destruct (Hf d) | |]; simpl; rewrite Hp; reflexivity.
  - repeat split.
Qed.

(** X9.  When rr cannot be executed, [execute_rr] raises [OSError] after
    it has emptied or created the log: the log is left behind, empty, and
    nothing has been spawned. *)
Theorem execute_rr_without_rr (rr_dir : string) (subjects : list Subject)
    (w : World) :
  fs w !! PROC_FILE <> Some Dir ->
  (forall d, fs w !! PROC_FILE <> Some (Fifo d)) ->
  programs w !! "rr" = None ->
  execute_rr rr_dir subjects w
  = (Raise OSError, with_fs (<[PROC_FILE := File (Text "")]> (fs w)) w).
Proof.
  intros Hd Hf Hp. unfold execute_rr, bind, open_w, Popen.
  destruct (fs w !! PROC_FILE) as [[|d|c]|] eqn:E;
    [congruence | now destruct (Hf d) | |]; simpl; rewrite Hp; reflexivity.
Qed.

(** ** More on the configuration *)

Lemma has_required_key i k :
  has_required i -> k ∈ required_options -> is_Some (i.2 !! k).
Proof.
  intros H Hk. unfold has_required in H. rewrite Forall_forall in H.
  now apply H.
Qed.

Lemma parse_subject_result i w r w' :
  parse_subject i w = (r, w') ->
  w' = w
  /\ (r = Raise NoOptionError /\ ~ has_required i
      \/ r = Ok (subject_of i) /\ has_required i).
Proof.
  assert (Hno : forall k, k ∈ required_options -> i.2 !! k = None ->
                          ~ has_required i).
  { intros k Hk E H. destruct (has_required_key i k H Hk). congruence. }
  unfold parse_subject, bind, cfg_get, ret, raise, subject_of.
  destruct (i.2 !! "event") as [ev|] eqn:E1; simpl;
    [| intros [= <- <-]; split; [reflexivity |]; left;
       split; [reflexivity |];
       apply (Hno "event"); [repeat constructor | exact E1]].
  destruct (i.2 !! "pid") as [rp|] eqn:E2; simpl;
    [| intros [= <- <-]; split; [reflexivity |]; left;
       split; [reflexivity |];
       apply (Hno "pid"); [repeat constructor | exact E2]].
  destruct (i.2 !! "trace_file") as [tf|] eqn:E3; simpl;
    [| intros [= <- <-]; split; [reflexivity |]; left;
       split; [reflexivity |];
       apply (Hno "trace_file"); [repeat constructor | exact E3]].
  destruct (i.2 !! "trace_start") as [ts|] eqn:E4; simpl;
    [| intros [= <- <-]; split; [reflexivity |]; left;
       split; [reflexivity |];
       apply (Hno "trace_start"); [repeat constructor | exact E4]].
  destruct (i.2 !! "trace_end") as [te|] eqn:E5; simpl;
    [| intros [= <- <-]; split; [reflexivity |]; left;
       split; [reflexivity |];
       apply (Hno "trace_end"); [repeat constructor | exact E5]].
  intros [= <- <-]. split; [reflexivity |]. right.
  split; [reflexivity |]. unfold has_required, required_options.
  repeat constructor; eauto.
Qed.

Lemma parse_subject_required i w :
  has_required i -> parse_subject i w = (Ok (subject_of i), w).
Proof.
  intros H. destruct (parse_subject i w) as [r w'] eqn:Hp.
  apply parse_subject_result in Hp as [-> [[_ Hbad] | [-> _]]];
    [contradiction | reflexivity].
Qed.

Lemma parse_subjects_required secs w :
  Forall has_required secs ->
  parse_subjects secs w = (Ok (subject_of <$> secs), w).
Proof.
  induction 1 as [|i secs Hi Hs IH]; [reflexivity |]. simpl.
  rewrite (bind_Ok _ _ _ _ _ (parse_subject_required i w Hi)).
  now rewrite (bind_Ok _ _ _ _ _ IH).
Qed.

Lemma parse_subjects_missing secs w :
  Exists (fun i => ~ has_required i) secs ->
  parse_subjects secs w = (Raise NoOptionError, w).
Proof.
  induction secs as [|i secs IH]; intros Hex; [now inversion Hex |].
  simpl. destruct (parse_subject i w) as [r w1] eqn:Hp.
  apply parse_subject_result in Hp as Hres.
  destruct Hres as [-> [[-> Hbad] | [-> Hgood]]].
  - now apply bind_Raise.
  - rewrite (bind_Ok _ _ _ _ _ Hp). apply bind_Raise. apply IH.
    apply Exists_cons in Hex as [Hex | Hex]; [contradiction | exact Hex].
Qed.

Lemma parse_subjects_Ok secs : forall w l w',
  parse_subjects secs w = (Ok l, w') -> l = subject_of <$> secs.
Proof.
  induction secs as [|i secs IH]; intros w l w'; simpl.
  - now intros [= <- _].
  - intros (s & w1 & Hs & Hr)%bind_Ok_inv.
    apply bind_Ok_inv in Hr as (ss & w2 & Hss & [= <- _]).
    apply parse_subject_result in Hs as [_ [[? _] | [[= ->] _]]];
      [discriminate |].
    now rewrite (IH _ _ _ Hss).
Qed.

Lemma sort_keys_numeric l w :
  Forall (fun s => is_Some (Py.int (event s))) l ->
  exists ks, sort_keys l w = (Ok ks, w).
Proof.
  induction 1 as [|s l [z Hz] Hl [ks IH]]; [now exists [] |].
  exists ((z, s) :: ks). simpl. unfold _sort_by_event, py_int. rewrite Hz.
  rewrite bind_ret. now rewrite (bind_Ok _ _ _ _ _ IH).
Qed.


Lemma sort_keys_frame l : forall w r w',
  sort_keys l w = (r, w') -> w' = w /\ r <> Diverge.
Proof.
  induction l as [|s l IH]; intros w r w'; simpl.
  - now intros [= <- <-].
  - unfold bind at 1, _sort_by_event, py_int.
    destruct (Py.int (event s)); [| now intros [= <- <-]].
    unfold ret at 1. unfold bind.
    destruct (sort_keys l w) as [[ks|e|] w1] eqn:Hl;
      apply IH in Hl as [-> Hd]; [| | now contradiction Hd];
      now intros [= <- <-].
Qed.

(** The steps of [get_configuration] up to the loop over the subject
    sections, for a file with a first section that names the replay
    directory and at least one more. *)
Lemma get_configuration_subjects ini_path sec0 sec1 rest rr w :
  fs w !! ini_path = Some (File (Ini (sec0 :: sec1 :: rest))) ->
  sec0.2 !! "rr_dir" = Some rr ->
  get_configuration ini_path w
  = (subjects <- parse_subjects (sec1 :: rest) ;;
     subjects <- list_sort subjects ;;
     ret (rr, subjects)) w.
Proof.
  intros Hfs Hrr. unfold get_configuration.
  unfold bind at 1, cfg_read. rewrite Hfs.
  change (getitem (sec0 :: sec1 :: rest) 0) with (ret sec0).
  rewrite bind_ret. unfold bind at 1, cfg_get. rewrite Hrr. reflexivity.
Qed.

(** X10.  A configuration with a first section that names the replay
    directory and, after it, at least one section, each with the five
    required options and a numeric event: [get_configuration] returns, with
    that directory and with one subject per section, the subjects being
    those of the sections in ascending order of event, and leaves the
    world as it was. *)
Theorem get_configuration_succeeds (ini_path : string) (w : World)
    (sec0 sec1 : string * gmap string string)
    (rest : list (string * gmap string string)) (rr : string) :
  fs w !! ini_path = Some (File (Ini (sec0 :: sec1 :: rest))) ->
  sec0.2 !! "rr_dir" = Some rr ->
  Forall has_required (sec1 :: rest) ->
  Forall (fun i => is_Some (Py.int (event (subject_of i)))) (sec1 :: rest) ->
  exists subjects,
    get_configuration ini_path w = (Ok (rr, subjects), w)
    /\ subject_of <$> (sec1 :: rest) ≡ₚ subjects
    /\ length subjects = S (length rest)
    /\ Sorted Z.le (event_number <$> subjects).
Proof.
  intros Hfs Hrr Hreq Hnum.
  rewrite (get_configuration_subjects _ _ _ _ _ _ Hfs Hrr).
  rewrite (bind_Ok _ _ _ _ _ (parse_subjects_required _ w Hreq)).
  destruct (sort_keys_numeric (subject_of <$> sec1 :: rest) w) as [ks Hks].
  { now rewrite Forall_fmap. }
  assert (Hsort : list_sort (subject_of <$> sec1 :: rest) w
                  = (Ok (snd <$> foldr insert_by_key [] ks), w)).
  { unfold list_sort. now rewrite (bind_Ok _ _ _ _ _ Hks). }
  exists (snd <$> foldr insert_by_key [] ks).
  rewrite (bind_Ok _ _ _ _ _ Hsort).
  apply list_sort_spec in Hsort as (_ & Hp & Hs & _).
  split; [reflexivity |]. split; [exact Hp |]. split.
  - rewrite <- Hp. now rewrite length_fmap.
  - apply StronglySorted_Sorted. now apply by_event_numbers.
Qed.

(** X11.  A configuration path that does not exist or is a directory:
    the parser reads nothing and [get_configuration] raises [IOError]. *)
Theorem unreadable_configuration_raises (ini_path : string) (w : World) :
  fs w !! ini_path = None \/ fs w !! ini_path = Some Dir ->
  get_configuration ini_path w = (Raise IOError, w).
Proof.
  intros [H | H]; unfold get_configuration, bind, cfg_read; now rewrite H.
Qed.

(** X12.  A subject section without one of the five required options
    makes [get_configuration] raise [NoOptionError], whatever the other
    sections are like; no subject list is returned and nothing is
    printed. *)
Theorem missing_option_raises (ini_path : string) (w : World)
    (sec0 sec1 : string * gmap string string)
    (rest : list (string * gmap string string)) (rr : string) :
  fs w !! ini_path = Some (File (Ini (sec0 :: sec1 :: rest))) ->
  sec0.2 !! "rr_dir" = Some rr ->
  Exists (fun i => ~ has_required i) (sec1 :: rest) ->
  get_configuration ini_path w = (Raise NoOptionError, w).
Proof.
  intros Hfs Hrr Hex.
  rewrite (get_configuration_subjects _ _ _ _ _ _ Hfs Hrr).
  apply bind_Raise. now apply parse_subjects_missing.
Qed.


(** X14.  Every subject that [get_configuration] returns is fresh: no
    skipped pids, no pid, no handle, and a state file named after its
    event. *)
Theorem configured_subjects_fresh (ini_path : string) (w w' : World)
    (rr_dir : string) (subjects : list Subject) :
  get_configuration ini_path w = (Ok (rr_dir, subjects), w') ->
  Forall fresh subjects.
Proof.
  intros Hcfg.
  apply get_configuration_spec in Hcfg
    as (sections & parsed & _ & Hparse & Hperm & _).
  rewrite <- Hperm. apply parse_subjects_Ok in Hparse as ->.
  rewrite Forall_fmap. apply Forall_true. intros i. repeat split.
Qed.

(** X15.  [get_configuration] reads and, for a configuration without
    subjects, prints; it does nothing else to the world, whatever its
    outcome. *)
Theorem get_configuration_only_prints (ini_path : string) (w w' : World)
    (r : result (string * list Subject)) :
  get_configuration ini_path w = (r, w') ->
  w' = w
  \/ (r = Raise (SystemExit 0)
      /\ w' = with_console (console w ++ [MsgNoOpportunities]) w).
Proof.
  unfold get_configuration. unfold bind at 1.
  destruct (cfg_read ini_path w) as [[secs|e|] w0] eqn:Hread;
    apply cfg_read_frame in Hread as ->;
    try (intros [= _ <-]; now left).
  unfold bind at 1, getitem.
  destruct secs as [|sec0 secs]; [intros [= _ <-]; now left |]. simpl.
  unfold ret at 1. unfold bind at 1, cfg_get.
  destruct (sec0.2 !! "rr_dir") as [rr|]; [| intros [= _ <-]; now left].
  unfold ret at 1. rewrite drop_0.
  destruct secs as [|sec1 rest].
  - intros [= <- <-]. right. split; reflexivity.
  - change ((length (sec1 :: rest) =? 0)%nat) with false. cbv iota.
    unfold bind at 1. cbv beta iota. unfold bind at 1.
    destruct (parse_subjects (sec1 :: rest) w) as [[l|e|] w1] eqn:Hp;
      apply parse_subjects_frame in Hp as ->;
      try (intros [= _ <-]; now left).
    unfold bind at 1, list_sort. unfold bind at 1.
    destruct (sort_keys l w) as [[ks|e|] w1] eqn:Hk;
      apply sort_keys_frame in Hk as [-> Hd];
      [| | now contradiction Hd]; intros [= _ <-]; now left.
Qed.

(** ** More on the orchestrator *)

(** X16.  Without an interrupt, when the test directory does not exist
    after the first cleanup: the program says so and leaves through
    [sys.exit(1)], which no handler catches; the status is 1, the
    configuration is not read and nothing is spawned. *)
Theorem missing_test_exits_1 (testname : string) (fuel : nat) (w : World) :
  sigint w = None ->
  fs w !! PROC_FILE <> Some Dir ->
  fs w !! RR_PIPE <> Some Dir ->
  let w1 := with_fs (delete RR_PIPE (delete PROC_FILE (fs w))) w in
  fs w1 !! (DEFAULT_CONFIG_PATH +:+ testname) = None ->
  let w2 := with_console (console w ++ [MsgTestMissing testname]) w1 in
  rreplay testname fuel w = (Raise (SystemExit 1), w2)
  /\ exit_status (rreplay testname fuel w).1 = Some 1
  /\ effects w2 = effects w.
Proof.
  intros Hsig Hp Hr w1 Hdir w2.
  assert (Hmain : main testname fuel w = (Raise (SystemExit 1), w2)).
  { unfold main.
    rewrite (bind_Ok _ _ _ _ _ (enter_quiet PRECLEANUP _ Hsig)).
    rewrite (bind_Ok _ _ _ _ _ (cleanup_runs _ Hp Hr)). fold w1.
    rewrite (bind_Ok _ _ _ tt w1) by now apply enter_quiet.
    unfold bind at 1, os_path_exists. rewrite Hdir.
    apply bind_Raise. reflexivity. }
  assert (Hrun : rreplay testname fuel w = (Raise (SystemExit 1), w2)).
  { unfold rreplay. now rewrite (bind_Raise _ _ _ _ _ Hmain). }
  split; [exact Hrun |]. split; [now rewrite Hrun | reflexivity].
Qed.

Lemma cleanup_Ok w w' :
  cleanup w = (Ok tt, w') ->
  fs w !! PROC_FILE <> Some Dir /\ fs w !! RR_PIPE <> Some Dir
  /\ w' = with_fs (delete RR_PIPE (delete PROC_FILE (fs w))) w.
Proof.
  intros Hc.
  assert (Hp : fs w !! PROC_FILE <> Some Dir).
  { intros E. revert Hc. unfold cleanup, bind, os_path_exists, os_unlink.
    rewrite E. simpl. rewrite E. discriminate. }
  assert (Hr : fs w !! RR_PIPE <> Some Dir).
  { intros E. revert Hc. unfold cleanup.
    change (bind (b <- os_path_exists PROC_FILE ;;
                  if b then os_unlink PROC_FILE else ret tt)
                 (fun _ => b <- os_path_exists RR_PIPE ;;
                           if b then os_unlink RR_PIPE else ret tt) w
            = (Ok tt, w') -> False).
    rewrite (bind_Ok _ _ _ _ _ (remove_if_exists _ _ Hp)).
    unfold bind, os_path_exists, os_unlink. simpl.
    destruct (decide (PROC_FILE = RR_PIPE)) as [Heq|Hne];
      [congruence |].
    rewrite lookup_delete_ne by exact Hne. rewrite E. simpl.
    rewrite lookup_delete_ne by exact Hne. rewrite E. discriminate. }
  rewrite (cleanup_runs _ Hp Hr) in Hc. injection Hc as <-. auto.
Qed.

(** X17.  When [main] returns, the program ends with status 0 and
    neither the log nor the pipe exists. *)
Theorem normal_completion_exits_0 (testname : string) (fuel : nat)
    (w w' : World) :
  main testname fuel w = (Ok tt, w') ->
  rreplay testname fuel w = (Raise (SystemExit 0), w')
  /\ exit_status (rreplay testname fuel w).1 = Some 0
  /\ fs w' !! PROC_FILE = None
  /\ fs w' !! RR_PIPE = None.
Proof.
  intros Hm.
  assert (Hrun : rreplay testname fuel w = (Raise (SystemExit 0), w')).
  { unfold rreplay. now rewrite (bind_Ok _ _ _ _ _ Hm). }
  split; [exact Hrun |]. split; [now rewrite Hrun |].
  rewrite main_launch in Hm.
  apply bind_Ok_inv in Hm as (s0 & w1 & _ & Hm).
  apply bind_Ok_inv in Hm as ([] & w2 & _ & Hm).
  apply bind_Ok_inv in Hm as (s1 & w3 & _ & Hm).
  apply bind_Ok_inv in Hm as ([] & w4 & _ & Hm).
  apply bind_Ok_inv in Hm as ([] & w5 & _ & Hm).
  apply bind_Ok_inv in Hm as ([] & w6 & _ & Hm).
  apply cleanup_Ok in Hm as (_ & _ & ->). simpl. split.
  - destruct (decide (RR_PIPE = PROC_FILE)) as [->|Hne].
    + apply lookup_delete_eq.
    + rewrite lookup_delete_ne by exact Hne. apply lookup_delete_eq.
  - apply lookup_delete_eq.
Qed.

(** X18.  An interrupt on entry to dispatch, after a launch that went
    through, with proc.out a regular file and neither of the program's two
    paths a directory: the handler prints the log, the cleanup removes
    both paths, and the status is 0. *)
Theorem interrupt_at_dispatch_exits_0 (testname : string) (fuel : nat)
    (w w0 : World) (subjects : list Subject) (c : Content) :
  launch testname w = (Ok subjects, w0) ->
  sigint w0 = Some DISPATCH ->
  fs w0 !! "proc.out" = Some (File c) ->
  fs w0 !! PROC_FILE <> Some Dir ->
  fs w0 !! RR_PIPE <> Some Dir ->
  let w' := with_fs (delete RR_PIPE (delete PROC_FILE (fs w0)))
              (with_console (console w0 ++ [MsgDump c])
                 (with_sigint None w0)) in
  rreplay testname fuel w = (Raise (SystemExit 0), w')
  /\ exit_status (rreplay testname fuel w).1 = Some 0
  /\ fs w' !! PROC_FILE = None /\ fs w' !! RR_PIPE = None
  /\ effects w' = effects w0.
Proof.
  intros Hl Hsig Hlog Hp Hr w'.
  assert (Hm : main testname fuel w
               = (Raise KeyboardInterrupt, with_sigint None w0)).
  { rewrite main_launch. rewrite (bind_Ok _ _ _ _ _ Hl).
    apply bind_Raise. unfold enter. rewrite Hsig. now case_decide. }
  assert (Hrun : rreplay testname fuel w = (Raise (SystemExit 0), w')).
  { now rewrite (interrupt_with_log _ _ _ _ c Hm). }
  split; [exact Hrun |]. split; [now rewrite Hrun |].
  subst w'. simpl. repeat split.
  - destruct (decide (RR_PIPE = PROC_FILE)) as [->|Hne].
    + apply lookup_delete_eq.
    + rewrite lookup_delete_ne by exact Hne. apply lookup_delete_eq.
  - apply lookup_delete_eq.
Qed.

(** *** The exit status *)




Ltac tame_step :=
  intros w e w';
  repeat case_match; try discriminate; intros [= <- _]; exact I.




Lemma tame_unlink path : raises_only exit_0_or_1 (os_unlink path).
Proof. unfold os_unlink. tame_step. Qed.



















(** ** More on supervision and cleanup *)

(** X20.  With no skipped pid on any subject, the supervisor goes
    through the whole list and returns: it waits once for each injector,
    in the order of the subjects, and prints for each subject what its
    outcome calls for: nothing after status 0, the failure line after
    another status, and both the no-handle line and the failure line for a
    subject that was never injected.  It touches no file. *)
Theorem supervision_without_skips (subjects : list Subject) (w : World) :
  Forall (fun s => other_procs s = []) subjects ->
  exists w',
    wait_on_handles subjects w = (Ok tt, w')
    /\ effects w' = (effects w ++ (Waited <$> omap handle subjects))%list
    /\ console w'
       = (console w
          ++ concat (supervisor_report (statuses w) <$> subjects))%list
    /\ fs w' = fs w /\ statuses w' = statuses w.
Proof.
  intros Hall. revert w.
  induction Hall as [|s rest Hs Hrest IH]; intros w.
  - exists w. simpl. rewrite !app_nil_r. auto.
  - simpl. unfold supervisor_report at 1. rewrite Hs.
    change (kill_other_procs s []) with (ret tt).
    destruct (handle s) as [h|].
    + unfold bind at 1, Popen_wait. rewrite bind_ret.
      destruct (default 0 (statuses w !! child h) =? 0) eqn:Hst; simpl negb;
        cbv iota.
      * rewrite bind_ret.
        destruct (IH (with_effects (effects w ++ [Waited h]) w))
          as (w' & Hw & He & Hc & Hf & Hstat).
        exists w'. split; [exact Hw |]. simpl in *.
        rewrite He, Hc, <- app_assoc. auto.
      * unfold bind at 1, print.
        destruct (IH (with_console
                        (console w
                         ++ [MsgInjectorFailed (event s) (rec_pid s)])
                        (with_effects (effects w ++ [Waited h]) w)))
          as (w' & Hw & He & Hc & Hf & Hstat).
        exists w'. split; [exact Hw |]. simpl in *.
        rewrite He, Hc, <- !app_assoc. auto.
    + unfold bind at 1. unfold bind at 1, print. unfold ret at 1.
      rewrite bind_ret. simpl negb. cbv iota. unfold bind at 1.
      destruct (IH (with_console
                      ((console w ++ [MsgNoHandle s])
                       ++ [MsgInjectorFailed (event s) (rec_pid s)]) w))
        as (w' & Hw & He & Hc & Hf & Hstat).
      exists w'. split; [exact Hw |]. simpl in *.
      rewrite He, Hc, <- !app_assoc. auto.
Qed.

(** X21.  Whatever its outcome, [cleanup] leaves every path other than
    the log and the pipe as it was, and changes nothing else in the
    world. *)
Theorem cleanup_touches_only_its_paths (w w' : World) (r : result unit)
    (path : string) :
  cleanup w = (r, w') ->
  path <> PROC_FILE -> path <> RR_PIPE ->
  fs w' !! path = fs w !! path
  /\ console w' = console w /\ effects w' = effects w
  /\ rrdump_pipe w' = rrdump_pipe w.
Proof.
  intros Hc Hp Hr. revert Hc.
  unfold cleanup, bind, os_path_exists, os_unlink, ret.
  repeat case_match; simplify_eq; intros [= _ <-]; simpl;
    rewrite ?lookup_delete_ne by congruence; auto.
Qed.

(** X22.  When the log path is a directory, [cleanup] fails with
    [OSError] on it and stops there: the pipe is not looked at and
    stays. *)
Theorem cleanup_fails_on_directory (w : World) :
  fs w !! PROC_FILE = Some Dir ->
  cleanup w = (Raise OSError, w).
Proof.
  intros E. unfold cleanup, bind, os_path_exists, os_unlink.
  rewrite E. simpl. now rewrite E.
Qed.

(** ** More on the pipe reader *)

Lemma read_line_fs fuel : forall buf f w,
  read_line fuel buf (with_fs f w)
  = ((read_line fuel buf w).1, with_fs f (read_line fuel buf w).2).
Proof.
  induction fuel as [|fuel IH]; intros buf f w; [reflexivity |].
  simpl. unfold bind, pipe_read1. simpl.
  destruct (rrdump_pipe w) as [[|c rest]|]; try reflexivity.
  - destruct (String.eqb _ ""); [reflexivity |].
    case_bool_decide; [reflexivity | apply IH].
  - destruct (String.eqb _ ""); [reflexivity |].
    case_bool_decide; [reflexivity |].
    apply (IH _ f (with_pipe (Some rest) w)).
Qed.

(** X23.  Once the pipe is open, a call of the reader goes by the open
    handle alone: it gives the same result whatever the path it is given
    and whatever has become of the file system since, the pipe having been
    unlinked for instance, and it leaves the file system alone. *)
Theorem open_pipe_is_kept (fuel : nat) (pipe_name other_name data : string)
    (f : gmap string Node) (w : World) :
  rrdump_pipe w = Some data ->
  get_message fuel other_name (with_fs f w)
  = ((get_message fuel pipe_name w).1,
     with_fs f (get_message fuel pipe_name w).2)
  /\ fs (get_message fuel pipe_name w).2 = fs w.
Proof.
  intros Hp.
  rewrite (get_message_open fuel other_name data (with_fs f w)) by exact Hp.
  rewrite (get_message_open fuel pipe_name data w) by exact Hp.
  split; [apply read_line_fs |].
  pose proof (read_line_fs fuel "" (fs w) w) as H.
  rewrite with_fs_same in H.
  destruct (read_line fuel "" w) as [r w'] eqn:E. simpl in *.
  now injection H as ->.
Qed.

(** ** What json and the configuration parser refuse *)

(** X24.  An INJECT message for a subject that has no handle yet but
    carries a string that is not UTF-8, the pid of the message for
    instance: the state file is opened for writing and so emptied,
    [json.dump] fails with [UnicodeDecodeError], the document that was
    there is lost and no injector is spawned. *)
Theorem undecodable_subject_tears_state_file (fuel : nat)
    (subjects : list Subject) (message : string) (w w1 : World)
    (verb f1 ev f3 p : string) (rest : list string) (s : Subject)
    (others : list Subject) (m : gmap string json) :
  Py.split " " message = verb :: f1 :: ev :: f3 :: p :: rest ->
  Py.drop_last (Py.strip verb) = "INJECT" ->
  wait_alive fuel p w = (Ok tt, w1) ->
  filter (fun x => event x = ev) subjects = s :: others ->
  handle s = None ->
  forallb Py.is_utf8 (subject_strings (set_pid p s)) = false ->
  fs w1 !! injected_state_file s = Some (File (Document (JObj m))) ->
  exists w2,
    process_message fuel subjects message w = (Raise UnicodeDecodeError, w2)
    /\ fs w2 !! injected_state_file s = Some (File Torn)
    /\ effects w2 = effects w.
Proof.
  intros Hs Hv Ha Hf Hh Hutf Hfile. eexists. split; [| split].
  - rewrite (process_message_parsed _ _ _ _ _ _ _ _ _ _ Hs).
    rewrite (bind_Ok _ _ _ _ _ Ha). rewrite Hf, Hv.
    change (getitem (s :: others) 0) with (ret s). rewrite bind_ret.
    change (String.eqb "INJECT" "INJECT") with true. cbv iota.
    rewrite (bind_Ok _ _ _ _ _ (json_load_document _ _ _ Hfile)).
    change (as_dict (JObj m)) with (ret m). rewrite bind_ret.
    apply bind_Raise. unfold json_dump_config, bind, open_w.
    rewrite Hfile. unfold subject_json. rewrite Hutf. simpl. rewrite Hh.
    reflexivity.
  - simpl. apply lookup_insert_eq.
  - simpl. now apply wait_alive_frame in Ha as (_ & ? & _).
Qed.

(** X25.  A configuration file in which every line is blank or a
    comment, the empty file included: the parser reads it and finds no
    section, and [get_configuration] raises [IndexError] when it takes
    the first one; nothing is printed. *)
Theorem empty_configuration_raises (ini_path text : string) (w : World) :
  fs w !! ini_path = Some (File (Text text)) ->
  Py.no_sections text = true ->
  get_configuration ini_path w = (Raise IndexError, w).
Proof.
  intros Hfs Hno. unfold get_configuration, bind, cfg_read.
  now rewrite Hfs, Hno.
Qed.

End Coordinator.

(** ** The program on the test *)

(** C1.  The interrupt before the replay is launched.  On entry to the
    first cleanup, or after it while the configuration is loaded, there is
    no proc.out: the handler's [open] raises [IOError], nothing is dumped,
    the cleanup is not run (the pipe left by an earlier run is still there
    in the first case) and the status is 1, not 0.  From dispatch on the
    log exists and the handler does what it is meant to. *)
Theorem interrupt_before_launch_skips_cleanup :
  let run interrupt :=
    rreplay demo_tests demo_log demo_pipe "demo" 100
      (demo_world [demo_rr_section; demo_section "a" "3" "200"]
         demo_inject interrupt) in
  ((run (Some PRECLEANUP)).1 = Raise IOError
   /\ exit_status (run (Some PRECLEANUP)).1 = Some 1
   /\ console (run (Some PRECLEANUP)).2 = []
   /\ fs (run (Some PRECLEANUP)).2 !! demo_pipe = Some (Fifo "stale"))
  /\ ((run (Some LOAD_CONFIG)).1 = Raise IOError
      /\ exit_status (run (Some LOAD_CONFIG)).1 = Some 1
      /\ console (run (Some LOAD_CONFIG)).2 = [])
  /\ ((run (Some DISPATCH)).1 = Raise (SystemExit 0)
      /\ console (run (Some DISPATCH)).2 = [MsgDump (Text "rr: replaying")]
      /\ fs (run (Some DISPATCH)).2 !! demo_log = None
      /\ fs (run (Some DISPATCH)).2 !! demo_pipe = None).
Proof. vm_compute. repeat split. Qed.

(** C2.  A run in which rr reports pid 100 as not injected for event 3.
    The pid is on the subject's [other_procs] when supervision starts, and
    supervision ends there in [TypeError]: no signal is sent to the pid,
    the second subject is never looked at, and the program ends with
    status 1 through the handler for [Exception]. *)
Theorem skipped_pid_is_not_killed :
  let r := rreplay demo_tests demo_log demo_pipe "demo" 100
             (demo_world [demo_rr_section; demo_section "a" "3" "200";
                          demo_section "b" "7" "201"]
                demo_dont_inject None) in
  let s := append_other_proc "100" (demo_subject "3" "200") in
  r.1 = Raise (SystemExit 1)
  /\ console r.2 = [MsgWaiting; MsgNoHandle s]
  /\ List.filter is_kill (effects r.2) = []
  /\ wait_on_handles [s; demo_subject "7" "201"] (demo_dispatching "")
     = (Raise TypeError,
        with_console [MsgNoHandle s] (demo_dispatching "")).
Proof. vm_compute. repeat split. Qed.

(** Both files are there; one call removes them, the next finds nothing
    to do. *)
Lemma cleanup_idempotent_witness :
  let w1 := with_fs ∅ demo_leftovers in
  cleanup demo_log demo_pipe demo_leftovers = (Ok tt, w1)
  /\ cleanup demo_log demo_pipe w1 = (Ok tt, w1).
Proof.
  destruct (cleanup_idempotent demo_log demo_pipe demo_leftovers)
    as (H1 & _ & _ & H2 & _).
  - vm_compute. discriminate.
  - vm_compute. discriminate.
  - split; [exact H1 | exact H2].
Defined.

(** Two messages on the pipe: the call returns the first and leaves the
    second. *)
Lemma get_message_line_witness :
  let w := demo_dispatching (demo_inject +:+ demo_dont_inject) in
  get_message 100 demo_pipe w
  = (Ok demo_inject, with_pipe (Some demo_dont_inject) w).
Proof.
  intros w.
  apply (proj1 (get_message_line_or_end demo_pipe demo_pipe
                  (demo_inject +:+ demo_dont_inject) w 99
                  (or_introl eq_refl))
           "INJECT: EVENT: 3 PID: 100 REC_PID: 200" demo_dont_inject).
  - reflexivity.
  - reflexivity.
  - vm_compute. lia.
Defined.

(** rr dies in the middle of a message. *)
Lemma partial_line_witness :
  (get_message 1000 demo_pipe (demo_dispatching "INJECT: EV")).1 = Diverge.
Proof.
  apply (partial_line_never_returns demo_pipe "INJECT: EV").
  - left. reflexivity.
  - discriminate.
  - reflexivity.
Defined.

Lemma dont_inject_witness :
  let subjects := [demo_subject "3" "200"; demo_subject "7" "201"] in
  let w := demo_dispatching "" in
  exists i s',
    subjects !! i = Some (demo_subject "3" "200")
    /\ other_procs s' = ["100"]
    /\ process_message 5 subjects demo_dont_inject w
       = (Ok (<[i := s']> subjects), (wait_alive 5 "100" w).2)
    /\ effects (wait_alive 5 "100" w).2 = effects w.
Proof.
  intros subjects w.
  destruct (dont_inject_records_pid 5 subjects demo_dont_inject w
              (wait_alive 5 "100" w).2
              "DONT_INJECT:" "EVENT:" "3" "PID:" "100"
              ["REC_PID:"; Py.line "200"]
              (demo_subject "3" "200") [])
    as (i & s' & Hi & _ & Hm & He & Ho & _).
  - reflexivity.
  - reflexivity.
  - vm_compute. reflexivity.
  - vm_compute. reflexivity.
  - exists i, s'. auto.
Defined.


Lemma unmatched_event_witness :
  exit_status
    (rreplay demo_tests demo_log demo_pipe "demo" 100
       (demo_world [demo_rr_section; demo_section "a" "3" "200"]
          demo_unmatched None)).1
  = Some 1.
Proof.
  pose (w := demo_world [demo_rr_section; demo_section "a" "3" "200"]
               demo_unmatched None).
  pose (w0 := (launch demo_tests demo_log demo_pipe "demo" w).2).
  pose (w1 := (get_message 100 demo_pipe w0).2).
  pose (w2 := (wait_alive 99 "100" w1).2).
  refine (proj2 (proj2
    (unmatched_event_exits_1 demo_tests demo_log demo_pipe "demo" 99
       w w0 w1 w2 [demo_subject "3" "200"] demo_unmatched
       "INJECT:" "EVENT:" "4" "PID:" "100" ["REC_PID:"; Py.line "200"]
       _ _ _ _ _ _))).
  - vm_compute. reflexivity.
  - vm_compute. reflexivity.
  - vm_compute. reflexivity.
  - reflexivity.
  - vm_compute. reflexivity.
  - vm_compute. reflexivity.
Defined.

(** The configuration lists event 7 before event 3; rr reports the
    process of event 3 for injection, and the supervisor waits for that
    injector first and then reports on event 7. *)
Lemma subjects_sorted_witness :
  let w := demo_world [demo_rr_section; demo_section "b" "7" "201";
                       demo_section "a" "3" "200"] "" None in
  let subjects := [demo_subject "3" "200"; demo_subject "7" "201"] in
  let h := {| child := 1;
              argv := ["inject"; "--verbosity=40"; "3_state.json"] |} in
  let subjects' := [set_handle h (set_pid "100" (demo_subject "3" "200"));
                    demo_subject "7" "201"] in
  exists w2 w3,
    get_configuration (demo_tests +:+ "demo/config.ini") w
    = (Ok ("/tmp/rr", subjects), w)
    /\ Sorted Z.le (event_number <$> subjects)
    /\ process_messages demo_pipe 100 subjects (demo_dispatching demo_inject)
       = (Ok subjects', w2)
    /\ wait_on_handles subjects' w2 = (Ok tt, w3)
    /\ effects w3 = (effects w2 ++ [Waited h])%list
    /\ console w3
       = (console w2
          ++ [MsgNoHandle (demo_subject "7" "201");
              MsgInjectorFailed "7" "201"])%list.
Proof.
  intros w subjects h subjects'.
  assert (Hcfg : get_configuration (demo_tests +:+ "demo/config.ini") w
                 = (Ok ("/tmp/rr", subjects), w)).
  { vm_compute. reflexivity. }
  pose (w2 := (process_messages demo_pipe 100 subjects
                 (demo_dispatching demo_inject)).2).
  pose (sup := wait_on_handles subjects' w2).
  assert (Hpm : process_messages demo_pipe 100 subjects
                  (demo_dispatching demo_inject) = (Ok subjects', w2)).
  { vm_compute. reflexivity. }
  assert (Hwait : wait_on_handles subjects' w2 = (sup.1, sup.2)).
  { apply surjective_pairing. }
  destruct (subjects_sorted_by_event demo_pipe _ _ _ _ _ Hcfg)
    as (_ & _ & Hsorted & _ & Hsup).
  destruct (Hsup _ _ _ _ _ _ Hpm Hwait)
    as (_ & _ & _ & He & Hc & _ & _ & Hall & _).
  destruct Hall as [Hr Hseen].
  { repeat constructor. }
  exists w2, sup.2.
  split; [exact Hcfg |]. split; [exact Hsorted |]. split; [exact Hpm |].
  split; [rewrite <- Hr; exact Hwait |].
  rewrite Hseen in He, Hc. split; [exact He | exact Hc].
Defined.

Lemma no_subjects_witness :
  let r := rreplay demo_tests demo_log demo_pipe "demo" 100
             (demo_world [demo_rr_section] "" None) in
  r.1 = Raise (SystemExit 0) /\ exit_status r.1 = Some 0
  /\ console r.2 = [MsgNoOpportunities] /\ effects r.2 = [].
Proof.
  destruct (no_subjects_exits_0 demo_tests demo_log demo_pipe "demo" 100
              (demo_world [demo_rr_section] "" None)
              demo_rr_section "/tmp/rr")
    as (_ & Hr & Hs & He).
  - reflexivity.
  - vm_compute. discriminate.
  - vm_compute. discriminate.
  - vm_compute. eauto.
  - vm_compute. reflexivity.
  - reflexivity.
  - cbv zeta. rewrite Hr. repeat split.
Defined.


(** ** The further properties on the test *)

Lemma message_fields_witness :
  Py.split " " (format_message "INJECT" "3" "100" "200")
  = ["INJECT:"; "EVENT:"; "3"; "PID:"; "100"; "REC_PID:"; Py.line "200"]
  /\ Py.drop_last (Py.strip "INJECT:") = "INJECT".
Proof.
  apply (message_fields "INJECT" "3" "100" "200"); reflexivity.
Defined.

Lemma short_message_witness :
  process_message 5 [demo_subject "3" "200"] (Py.line "INJECT: EVENT: 3")
    (demo_dispatching "")
  = (Raise IndexError, demo_dispatching "").
Proof. apply short_message_raises. vm_compute. lia. Defined.

Lemma other_verb_witness :
  let w := demo_dispatching "" in
  let subjects := [demo_subject "3" "200"] in
  process_message 5 subjects (Py.line "SKIP: EVENT: 3 PID: 100 REC_PID: 200") w
  = (Ok subjects, (wait_alive 5 "100" w).2).
Proof.
  intros w subjects.
  refine (proj1 (other_verb_changes_nothing 5 subjects _ w
                   (wait_alive 5 "100" w).2
                   "SKIP:" "EVENT:" "3" "PID:" "100"
                   ["REC_PID:"; Py.line "200"]
                   (demo_subject "3" "200") [] _ _ _ _ _)).
  - reflexivity.
  - vm_compute. discriminate.
  - vm_compute. discriminate.
  - vm_compute. reflexivity.
  - vm_compute. reflexivity.
Defined.

Lemma inject_without_state_file_witness :
  let w := demo_dispatching "" in
  process_message 5 [demo_subject "7" "201"]
    (Py.line "INJECT: EVENT: 7 PID: 100 REC_PID: 201") w
  = (Raise IOError, (wait_alive 5 "100" w).2).
Proof.
  intros w.
  refine (proj1 (inject_without_state_file 5 [demo_subject "7" "201"] _ w
                   (wait_alive 5 "100" w).2
                   "INJECT:" "EVENT:" "7" "PID:" "100"
                   ["REC_PID:"; Py.line "201"]
                   (demo_subject "7" "201") [] _ _ _ _ _)).
  - reflexivity.
  - reflexivity.
  - vm_compute. reflexivity.
  - vm_compute. reflexivity.
  - vm_compute. reflexivity.
Defined.

Lemma second_inject_witness :
  let w := demo_dispatching "" in
  let h := {| child := 1; argv := ["inject"; "--verbosity=40"; "3_state.json"] |} in
  let s := set_handle h (set_pid "100" (demo_subject "3" "200")) in
  exists w2,
    process_message 5 [s] demo_inject w = (Raise TypeError, w2)
    /\ fs w2 !! "3_state.json" = Some (File Torn)
    /\ effects w2 = effects w.
Proof.
  intros w h s.
  refine (second_inject_tears_state_file 5 [s] demo_inject w
            (wait_alive 5 "100" w).2
            "INJECT:" "EVENT:" "3" "PID:" "100" ["REC_PID:"; Py.line "200"]
            s [] h ∅ _ _ _ _ _ _ _).
  - reflexivity.
  - reflexivity.
  - vm_compute. reflexivity.
  - vm_compute. reflexivity.
  - reflexivity.
  - vm_compute. reflexivity.
  - vm_compute. reflexivity.
Defined.

(** Two subjects with event 3; rr reports a skipped pid for it. *)
Lemma shadowed_subject_witness :
  let subjects := [demo_subject "3" "200"; demo_subject "3" "250"] in
  let final := [append_other_proc "100" (demo_subject "3" "200");
                demo_subject "3" "250"] in
  let r := process_messages demo_pipe 50 subjects
             (demo_dispatching demo_dont_inject) in
  r.1 = Ok final /\ final !! 1%nat = subjects !! 1%nat.
Proof.
  intros subjects final r. split; [vm_compute; reflexivity |].
  refine (shadowed_subject_untouched demo_pipe 50 subjects
            (demo_dispatching demo_dont_inject) final r.2 0 1 _ _ _ _).
  - vm_compute. reflexivity.
  - lia.
  - vm_compute. eauto.
  - reflexivity.
Defined.

Lemma execute_rr_witness :
  let w := with_fs ∅ (demo_world [] demo_inject None) in
  exists w',
    execute_rr demo_log "/tmp/rr" [demo_subject "3" "200"] w = (Ok tt, w')
    /\ effects w' = [Spawned ["rr"; "replay"; "-a"; "-n"; "200:3,"; "/tmp/rr"]]
    /\ fs w' !! demo_pipe = Some (Fifo demo_inject).
Proof.
  intros w.
  destruct (execute_rr_launches demo_log "/tmp/rr" [demo_subject "3" "200"]
              w (demo_rr_files demo_inject))
    as (w' & Hr & He & Hf & _).
  - vm_compute. discriminate.
  - intros d. vm_compute. discriminate.
  - vm_compute. reflexivity.
  - exists w'. split; [exact Hr |]. split; [exact He |].
    rewrite Hf. vm_compute. reflexivity.
Defined.

Lemma execute_rr_without_rr_witness :
  let w := with_fs ∅ (demo_dispatching "") in
  execute_rr demo_log "/tmp/rr" [demo_subject "3" "200"] w
  = (Raise OSError, with_fs {[ demo_log := File (Text "") ]} w).
Proof.
  intros w.
  refine (execute_rr_without_rr demo_log "/tmp/rr" _ w _ _ _).
  - vm_compute. discriminate.
  - intros d. vm_compute. discriminate.
  - vm_compute. reflexivity.
Defined.


Lemma get_configuration_succeeds_witness :
  let w := demo_world [demo_rr_section; demo_section "b" "7" "201";
                       demo_section "a" "3" "200"] "" None in
  exists subjects,
    get_configuration (demo_tests +:+ "demo/config.ini") w
    = (Ok ("/tmp/rr", subjects), w)
    /\ length subjects = 2%nat.
Proof.
  intros w.
  destruct (get_configuration_succeeds (demo_tests +:+ "demo/config.ini") w
              demo_rr_section (demo_section "b" "7" "201")
              [demo_section "a" "3" "200"] "/tmp/rr")
    as (subjects & Hcfg & _ & Hlen & _).
  - vm_compute. reflexivity.
  - reflexivity.
  - repeat (apply Forall_cons_2;
              [unfold has_required, required_options;
               repeat (apply Forall_cons_2;
                       [vm_compute; eexists; reflexivity |]);
               apply Forall_nil_2 |]);
      apply Forall_nil_2.
  - repeat (apply Forall_cons_2; [vm_compute; eexists; reflexivity |]);
      apply Forall_nil_2.
  - exists subjects. auto.
Defined.

Lemma unreadable_configuration_witness :
  get_configuration "/nowhere/config.ini" (demo_dispatching "")
  = (Raise IOError, demo_dispatching "").
Proof.
  apply unreadable_configuration_raises. left. vm_compute. reflexivity.
Defined.

(** The second subject section has no pid. *)
Lemma missing_option_witness :
  let bad : string * gmap string string :=
    ("c", delete "pid" (demo_section "c" "9" "202").2) in
  let w := demo_world [demo_rr_section; demo_section "a" "3" "200"; bad]
             "" None in
  get_configuration (demo_tests +:+ "demo/config.ini") w
  = (Raise NoOptionError, w).
Proof.
  intros bad w.
  refine (missing_option_raises _ w demo_rr_section
            (demo_section "a" "3" "200") [bad] "/tmp/rr" _ _ _).
  - vm_compute. reflexivity.
  - reflexivity.
  - apply Exists_cons_tl, Exists_cons_hd. intros H.
    destruct (has_required_key bad "pid" H) as [v Hv];
      [right; left | vm_compute in Hv; discriminate].
Defined.


Lemma configured_subjects_fresh_witness :
  Forall fresh [demo_subject "3" "200"; demo_subject "7" "201"].
Proof.
  refine (configured_subjects_fresh (demo_tests +:+ "demo/config.ini")
            (demo_world [demo_rr_section; demo_section "b" "7" "201";
                         demo_section "a" "3" "200"] "" None)
            _ "/tmp/rr" _ _).
  vm_compute. reflexivity.
Defined.

Lemma get_configuration_only_prints_witness :
  let w := demo_world [demo_rr_section] "" None in
  let w' := (get_configuration (demo_tests +:+ "demo/config.ini") w).2 in
  w' = w \/ w' = with_console [MsgNoOpportunities] w.
Proof.
  intros w w'.
  destruct (get_configuration_only_prints (demo_tests +:+ "demo/config.ini")
              w w' (get_configuration (demo_tests +:+ "demo/config.ini") w).1)
    as [H | [_ H]].
  - vm_compute. reflexivity.
  - now left.
  - right. exact H.
Defined.

Lemma missing_test_witness :
  let r := rreplay demo_tests demo_log demo_pipe "nosuchtest" 100
             (demo_world [demo_rr_section] "" None) in
  r.1 = Raise (SystemExit 1) /\ console r.2 = [MsgTestMissing "nosuchtest"]
  /\ effects r.2 = [].
Proof.
  destruct (missing_test_exits_1 demo_tests demo_log demo_pipe "nosuchtest"
              100 (demo_world [demo_rr_section] "" None))
    as (Hr & _ & He).
  - reflexivity.
  - vm_compute. discriminate.
  - vm_compute. discriminate.
  - vm_compute. reflexivity.
  - cbv zeta. rewrite Hr. repeat split.
Defined.

Lemma normal_completion_witness :
  let w := demo_world [demo_rr_section; demo_section "a" "3" "200"]
             demo_inject None in
  let r := rreplay demo_tests demo_log demo_pipe "demo" 100 w in
  r.1 = Raise (SystemExit 0)
  /\ fs r.2 !! demo_log = None /\ fs r.2 !! demo_pipe = None.
Proof.
  intros w.
  assert (Hmain : exists w', main demo_tests demo_log demo_pipe "demo" 100 w
                             = (Ok tt, w')).
  { vm_compute. eexists. reflexivity. }
  destruct Hmain as [w' Hmain].
  destruct (normal_completion_exits_0 demo_tests demo_log demo_pipe "demo"
              100 w w' Hmain)
    as (Hr & _ & Hl & Hp).
  cbv zeta. rewrite Hr. exact (conj eq_refl (conj Hl Hp)).
Defined.

Lemma interrupt_at_dispatch_witness :
  let r := rreplay demo_tests demo_log demo_pipe "demo" 100
             (demo_world [demo_rr_section; demo_section "a" "3" "200"]
                demo_inject (Some DISPATCH)) in
  r.1 = Raise (SystemExit 0)
  /\ console r.2 = [MsgDump (Text "rr: replaying")]
  /\ fs r.2 !! demo_log = None /\ fs r.2 !! demo_pipe = None.
Proof.
  pose (w := demo_world [demo_rr_section; demo_section "a" "3" "200"]
               demo_inject (Some DISPATCH)).
  destruct (interrupt_at_dispatch_exits_0 demo_tests demo_log demo_pipe
              "demo" 100 w
              (launch demo_tests demo_log demo_pipe "demo" w).2
              [demo_subject "3" "200"] (Text "rr: replaying"))
    as (Hr & _ & Hl & Hp & _).
  - vm_compute. reflexivity.
  - vm_compute. reflexivity.
  - vm_compute. reflexivity.
  - vm_compute. discriminate.
  - vm_compute. discriminate.
  - cbv zeta. fold w. rewrite Hr. cbn [fst snd].
    split; [reflexivity |]. split; [vm_compute; reflexivity |].
    split; [exact Hl | exact Hp].
Defined.

(** One subject injected, its injector ending with status 2, and one
    that was never injected. *)
Lemma supervision_without_skips_witness :
  let h := {| child := 1; argv := ["inject"; "--verbosity=40"; "3_state.json"] |} in
  let s3 := set_handle h (set_pid "100" (demo_subject "3" "200")) in
  let s7 := demo_subject "7" "201" in
  let w := {| fs := ∅; rrdump_pipe := Some ""; console := []; effects := [];
              programs := ∅; starting := ∅; gone := ∅; statuses := [0; 2];
              sigint := None |} in
  exists w',
    wait_on_handles [s3; s7] w = (Ok tt, w')
    /\ effects w' = [Waited h]
    /\ console w' = [MsgInjectorFailed "3" "200"; MsgNoHandle s7;
                     MsgInjectorFailed "7" "201"].
Proof.
  intros h s3 s7 w.
  destruct (supervision_without_skips [s3; s7] w)
    as (w' & Hw & He & Hc & _).
  - repeat constructor.
  - exists w'. split; [exact Hw |]. split; [exact He | exact Hc].
Defined.

Lemma cleanup_touches_only_its_paths_witness :
  let w := demo_world [demo_rr_section] "" None in
  fs (cleanup demo_log demo_pipe w).2 !! "3_state.json"
  = fs w !! "3_state.json".
Proof.
  intros w.
  refine (proj1 (cleanup_touches_only_its_paths demo_log demo_pipe w
                   (cleanup demo_log demo_pipe w).2
                   (cleanup demo_log demo_pipe w).1 "3_state.json" _ _ _)).
  - vm_compute. reflexivity.
  - discriminate.
  - discriminate.
Defined.

Lemma cleanup_fails_on_directory_witness :
  let w := with_fs (<[demo_log := Dir]> {[ demo_pipe := Fifo "stale" ]})
             (demo_dispatching "") in
  cleanup demo_log demo_pipe w = (Raise OSError, w).
Proof.
  intros w. apply cleanup_fails_on_directory. vm_compute. reflexivity.
Defined.

(** The pipe has been unlinked; the second message is read all the
    same. *)
Lemma open_pipe_is_kept_witness :
  let w := demo_dispatching demo_dont_inject in
  get_message 100 "elsewhere" (with_fs ∅ w)
  = (Ok demo_dont_inject, with_fs ∅ (with_pipe (Some "") w)).
Proof.
  intros w.
  rewrite (proj1 (open_pipe_is_kept 100 demo_pipe "elsewhere"
                    demo_dont_inject ∅ w eq_refl)).
  vm_compute. reflexivity.
Defined.

(** The pid of the message is the single byte 0xFF. *)
Lemma undecodable_subject_witness :
  let p := String (ascii_of_nat 255) "" in
  let w := with_starting {[ p := 0%nat ]} (demo_dispatching "") in
  exists w2,
    process_message 5 [demo_subject "3" "200"]
      (Py.line ("INJECT: EVENT: 3 PID: " +:+ p +:+ " REC_PID: 200")) w
    = (Raise UnicodeDecodeError, w2)
    /\ fs w2 !! "3_state.json" = Some (File Torn)
    /\ effects w2 = effects w.
Proof.
  intros p w.
  refine (undecodable_subject_tears_state_file 5 [demo_subject "3" "200"] _
            w w
            "INJECT:" "EVENT:" "3" "PID:" p ["REC_PID:"; Py.line "200"]
            (demo_subject "3" "200") [] ∅ _ _ _ _ _ _ _).
  - reflexivity.
  - reflexivity.
  - vm_compute. reflexivity.
  - vm_compute. reflexivity.
  - reflexivity.
  - vm_compute. reflexivity.
  - vm_compute. reflexivity.
Defined.

(** A config.ini that holds a comment and a blank line. *)
Lemma empty_configuration_witness :
  let text := Py.line "# no test yet" +:+ Py.line "" in
  let w := with_fs {[ "config.ini" := File (Text text) ]}
             (demo_dispatching "") in
  get_configuration "config.ini" w = (Raise IndexError, w).
Proof.
  intros text w. apply (empty_configuration_raises "config.ini" text w).
  - vm_compute. reflexivity.
  - vm_compute. reflexivity.
Defined.
